(** * open-resume-ai: the document reader of the resume parser

    A shallow embedding of
      - src/app/lib/parse-resume-from-pdf/unstructured-api.ts
        (parseDocumentWithUnstructured, convertUnstructuredToTextItems),
      - src/app/lib/parse-resume-from-pdf/read-document.ts
        (readDocument, readPdf),
      - the pipeline entry points parseResumeFromPdf and parseResumeFromFile,
    and the properties of the reader stage established on it.

    JavaScript strings are sequences of UTF-16 code units, JavaScript numbers
    are IEEE 754 binary64 values (Rocq's primitive floats), a rejected promise
    or a thrown value is the [Throw] outcome of a computation. *)

From Stdlib Require Import List String Ascii Bool ZArith NArith Lia.
From Stdlib Require Import DecimalString Floats.
Import ListNotations.

Set Implicit Arguments.

(* ================================================================== *)
(** ** JavaScript strings *)

Module Js.

Definition CodeUnit := N.
Definition JsString := list CodeUnit.

(** An ASCII literal of the source, as code units. *)
Definition lit (s : string) : JsString :=
  map N_of_ascii (list_ascii_of_string s).

(** ECMAScript WhiteSpace and LineTerminator code points, the set that
    [String.prototype.trim] strips. *)
Definition isWhiteSpace (c : CodeUnit) : bool :=
  ((c =? 0x09) || (c =? 0x0A) || (c =? 0x0B) || (c =? 0x0C) || (c =? 0x0D)
   || (c =? 0x20) || (c =? 0xA0) || (c =? 0x1680)
   || ((0x2000 <=? c) && (c <=? 0x200A))
   || (c =? 0x2028) || (c =? 0x2029) || (c =? 0x202F) || (c =? 0x205F)
   || (c =? 0x3000) || (c =? 0xFEFF))%N.

Fixpoint trimStart (s : JsString) : JsString :=
  match s with
  | [] => []
  | c :: rest => if isWhiteSpace c then trimStart rest else s
  end.

Definition trimEnd (s : JsString) : JsString := rev (trimStart (rev s)).

(** [s.trim()] *)
Definition trim (s : JsString) : JsString := trimEnd (trimStart s).

(** ToBoolean on a string: only the empty string is falsy. *)
Definition truthy_string (s : JsString) : bool :=
  match s with [] => false | _ :: _ => true end.

(** [s === ""] *)
Definition is_empty_string (s : JsString) : bool := negb (truthy_string s).

(** [a || b] on strings. *)
Definition or_string (a b : JsString) : JsString :=
  if truthy_string a then a else b.

(** Template-literal rendering of a non-negative integer. *)
Definition string_of_N (n : N) : JsString :=
  lit (NilZero.string_of_uint (N.to_uint n)).

(** [s.split(sep)] for a one-code-unit separator: never empty. *)
Fixpoint split (sep : CodeUnit) (s : JsString) : list JsString :=
  match s with
  | [] => [[]]
  | c :: rest =>
      if (c =? sep)%N then [] :: split sep rest
      else match split sep rest with
           | seg :: segs => (c :: seg) :: segs
           | [] => [[c]]
           end
  end.

(** [arr.pop()] as a value: the last element, [None] standing for
    [undefined]. *)
Definition pop (A : Type) (arr : list A) : option A :=
  match rev arr with
  | [] => None
  | last :: _ => Some last
  end.

End Js.
Import Js.

(* ================================================================== *)
(** ** JavaScript numbers *)

Module Num.

Local Open Scope float_scope.

(** ToBoolean on a number: [+0], [-0] and [NaN] are falsy. *)
Definition truthy_number (n : float) : bool :=
  negb (is_nan n || is_zero n).

(** [a || b] on numbers. *)
Definition or_number (a b : float) : float :=
  if truthy_number a then a else b.

(** ToNumber on the result of an index expression [p[i]]: a missing
    element is [undefined], which converts to [NaN]. *)
Definition ToNumber (v : option float) : float :=
  match v with Some n => n | None => nan end.

Definition is_neg_zero (n : float) : bool :=
  match classify n with NZero => true | _ => false end.

Definition is_pos_zero (n : float) : bool :=
  match classify n with PZero => true | _ => false end.

(** ECMAScript Math.min, steps 4 and 5, over the coerced arguments. *)
Fixpoint min_loop (lowest : float) (coerced : list float) : float :=
  match coerced with
  | [] => lowest
  | number :: rest =>
      if is_nan number then nan
      else
        let lowest :=
          if is_neg_zero number && is_pos_zero lowest then neg_zero
          else lowest in
        let lowest := if number <? lowest then number else lowest in
        min_loop lowest rest
  end.

(** ECMAScript Math.max, steps 4 and 5. *)
Fixpoint max_loop (highest : float) (coerced : list float) : float :=
  match coerced with
  | [] => highest
  | number :: rest =>
      if is_nan number then nan
      else
        let highest :=
          if is_pos_zero number && is_neg_zero highest then zero
          else highest in
        let highest := if highest <? number then number else highest in
        max_loop highest rest
  end.

(** [Math.min(...args)] *)
Definition Math_min (args : list (option float)) : float :=
  min_loop infinity (map ToNumber args).

(** [Math.max(...args)] *)
Definition Math_max (args : list (option float)) : float :=
  max_loop neg_infinity (map ToNumber args).

End Num.
Import Num.

(* ================================================================== *)
(** ** Thrown values and outcomes *)

(** A thrown value that is not an [Error] object. *)
Inductive Primitive :=
| PUndefined
| PNull
| PBoolean (b : bool)
| PNumber (n : float)
| PString (s : JsString).

(** What a [throw] or a rejected promise carries: an [Error] object (of any
    subclass, told apart by [name]) or something else. *)
Inductive Thrown :=
| ErrorObject (name message : JsString)
| NonError (v : Primitive).

(** [error instanceof Error] *)
Definition instanceof_Error (error : Thrown) : bool :=
  match error with ErrorObject _ _ => true | NonError _ => false end.

(** [error.message] of an [Error] object. *)
Definition message_of (error : Thrown) : JsString :=
  match error with ErrorObject _ m => m | NonError _ => [] end.

(** [new Error(message)] *)
Definition new_Error (message : JsString) : Thrown :=
  ErrorObject (lit "Error") message.

Inductive Result (A : Type) :=
| Ok (a : A)
| Throw (error : Thrown).
Arguments Ok {A} a.
Arguments Throw {A} error.


(** Sequencing of calls that may throw. *)
Definition Result_bind (A B : Type) (r : Result A) (k : A -> Result B)
  : Result B :=
  match r with
  | Ok a => k a
  | Throw error => Throw error
  end.

(** What a call with more arguments than the engine can take throws (the
    message is V8's). *)
Definition RangeError_stack : Thrown :=
  ErrorObject (lit "RangeError") (lit "Maximum call stack size exceeded").

(** [f(...args)]: the elements of [args] are passed as the arguments of one
    call, which the engine refuses when there are more of them than it can
    take where the call is made. [limit] is that number: it is a fact of
    the engine and of the stack left at the call, not of the program, and a
    call with one argument always fits. *)
Definition spread (limit : positive)
           (f : list (option float) -> float) (args : list (option float))
  : Result float :=
  if (N.of_nat (List.length args) <=? N.pos limit)%N then Ok (f args)
  else Throw RangeError_stack.
(* ================================================================== *)
(** ** Data model *)

(** [metadata.coordinates] of an element. *)
Record Coordinates := mkCoordinates {
  points : list (list float);
  system : JsString;
  layout_width : float;
  layout_height : float
}.

(** [metadata] of an element; every field is optional. *)
Record Metadata := mkMetadata {
  filename : option JsString;
  page_number : option float;
  coordinates : option Coordinates
}.

(** [{}] *)
Definition empty_metadata : Metadata := mkMetadata None None None.

Module UnstructuredElement.
Record t := mk {
  type : JsString;
  text : JsString;
  metadata : option Metadata
}.
End UnstructuredElement.
Abbreviation UnstructuredElement := UnstructuredElement.t.

Module TextItem.
Record t := mk {
  text : JsString;
  x : float;
  y : float;
  width : float;
  height : float;
  fontName : JsString;
  hasEOL : bool
}.
End TextItem.
Abbreviation TextItem := TextItem.t.
Definition TextItems := list TextItem.

(* ================================================================== *)
(** ** convertUnstructuredToTextItems *)

Section Convert.

Local Open Scope float_scope.

Notation "x <~ r ;; k" := (Result_bind r (fun x => k))
  (at level 61, r at next level, right associativity).

(** The engine's bound on the arguments of a spread call, where the
    converter runs. *)
Variable limit : positive.

(** The filter callback: [element.text && element.text.trim()], read as a
    boolean. *)
Definition has_text (element : UnstructuredElement) : bool :=
  truthy_string (UnstructuredElement.text element)
  && truthy_string (trim (UnstructuredElement.text element)).

(** [coordinates && coordinates.points && coordinates.points.length > 0];
    an array is truthy whatever its length. *)
Definition has_points (coordinates : option Coordinates) : bool :=
  match coordinates with
  | Some c => Nat.ltb 0 (List.length (points c))
  | None => false
  end.

(** [points.map(p => p[i])]: a point with no element [i] gives
    [undefined]. *)
Definition column (i : nat) (points : list (list float))
  : list (option float) :=
  map (fun p => nth_error p i) points.

(** The body of the [if]: the bounding box [(x, y, width, height)] of the
    points, moved to a bottom-left origin. Each of the four [Math.min] and
    [Math.max] calls spreads one value per point. *)
Definition bounding_box (c : Coordinates)
  : Result (float * float * float * float) :=
  let points := points c in
  let xs := column 0 points in
  let ys := column 1 points in
  x <~ spread limit Math_min xs ;;
  maxX <~ spread limit Math_max xs ;;
  let width := maxX - x in
  maxY <~ spread limit Math_max ys ;;
  minY <~ spread limit Math_min ys ;;
  let height := maxY - minY in
  let pageHeight := or_number (layout_height c) 792 in
  let y := pageHeight - maxY in
  Ok (x, y, width, height).

(** The map callback; its [index] argument is unused. *)
Definition toTextItem (element : UnstructuredElement) : Result TextItem :=
  let metadata :=
    match UnstructuredElement.metadata element with
    | Some m => m
    | None => empty_metadata
    end in
  let coordinates := coordinates metadata in
  box <~ match coordinates with
         | Some c => if has_points coordinates then bounding_box c
                     else Ok (0, 0, 100, 12)
         | None => Ok (0, 0, 100, 12)
         end ;;
  let '(x, y, width, height) := box in
  let hasEOL := true in
  Ok (TextItem.mk (UnstructuredElement.text element) x y width height
                  (lit "UnknownFont") hasEOL).

(** [arr.map(callback)]: the callback runs on the elements in order, and
    what it throws ends the call. *)
Fixpoint Array_map (A B : Type) (callback : A -> Result B) (arr : list A)
  : Result (list B) :=
  match arr with
  | [] => Ok []
  | a :: rest =>
      b <~ callback a ;;
      bs <~ Array_map callback rest ;;
      Ok (b :: bs)
  end.

Definition convertUnstructuredToTextItems
           (elements : list UnstructuredElement) : Result TextItems :=
  Array_map toTextItem (filter has_text elements).

End Convert.
(* ================================================================== *)
(** ** The outside world: files, environment, network *)

Record Blob := mkBlob {
  blob_bytes : list N;
  blob_type : JsString
}.

(** [new File(bits, name, { type })] *)
Record File := mkFile {
  file_bits : list Blob;
  file_name : JsString;
  file_type : JsString
}.

Inductive FormValue :=
| FormFile (f : File)
| FormString (s : JsString).

(** A [FormData], in the order of its [append] calls. *)
Definition FormData := list (JsString * FormValue).

Record RequestInit := mkRequestInit {
  method : JsString;
  headers : list (JsString * JsString);
  body : FormData
}.

(** A [Response]; [response.text()], [response.json()] and [response.blob()]
    are the outcomes their promises settle to. *)
Record Response := mkResponse {
  ok : bool;
  status : N;
  statusText : JsString;
  text : Result JsString;
  json : Result (list UnstructuredElement);
  blob : Result Blob
}.

(** [process.env], the outcome of each [fetch] call, and the engine's bound
    on the arguments of a spread call where readDocument calls the
    converter. *)
Record World := mkWorld {
  NEXT_PUBLIC_UNSTRUCTURED_API_KEY : option JsString;
  NEXT_PUBLIC_UNSTRUCTURED_API_URL : option JsString;
  fetch_outcome : JsString -> option RequestInit -> Result Response;
  spread_limit : positive
}.

(** An optional string read as a string, [undefined] being falsy. *)
Definition or_undefined (v : option JsString) : JsString :=
  match v with Some s => s | None => [] end.

(* ================================================================== *)
(** ** Computations: a log of outside calls and an outcome *)

Section Pipeline.

(** The three downstream stages live in modules of their own
    (group-text-items-into-lines, group-lines-into-sections,
    extract-resume-from-sections); the entry points only call them, so
    they are parameters here, each a function of its input. *)
Variables Lines Sections Resume : Type.
Variable groupTextItemsIntoLines : TextItems -> Lines.
Variable groupLinesIntoSections : Lines -> Sections.
Variable extractResumeFromSections : Sections -> Resume.

Variable world : World.

(** Every call to the outside: the network and the downstream stages. *)
Inductive Event :=
| CallFetch (url : JsString) (init : option RequestInit)
| CallGroupTextItemsIntoLines (textItems : TextItems)
| CallGroupLinesIntoSections (lines : Lines)
| CallExtractResumeFromSections (sections : Sections).

(** An async computation run to completion: the calls it made, in order,
    and what its promise settled to. *)
Definition M (A : Type) : Type := list Event * Result A.

Definition ret {A} (a : A) : M A := ([], Ok a).

Definition throw {A} (error : Thrown) : M A := ([], Throw error).

Definition bind {A B} (m : M A) (k : A -> M B) : M B :=
  match m with
  | (log, Ok a) => let '(log', r) := k a in (log ++ log', r)
  | (log, Throw error) => (log, Throw error)
  end.

(** [try { m } catch (error) { handler error }] *)
Definition try_catch {A} (m : M A) (handler : Thrown -> M A) : M A :=
  match m with
  | (log, Ok a) => (log, Ok a)
  | (log, Throw error) =>
      let '(log', r) := handler error in (log ++ log', r)
  end.

(** [await p] for a promise of the outside world. *)
Definition await {A} (p : Result A) : M A := ([], p).

(** A synchronous call that makes no outside call and may throw. *)
Definition eval {A} (r : Result A) : M A := ([], r).

Definition calls {A} (m : M A) : list Event := fst m.
Definition outcome {A} (m : M A) : Result A := snd m.

Notation "x <- m ;; k" := (bind m (fun x => k))
  (at level 61, m at next level, right associativity).

(** [fetch(url, init)] *)
Definition fetch (url : JsString) (init : option RequestInit) : M Response :=
  ([CallFetch url init], fetch_outcome world url init).

(** The shared shape of the three catch clauses:
    [if (error instanceof Error) throw new Error(`<prefix>${error.message}`);
     throw error;] *)
Definition rethrow {A} (prefix : JsString) (error : Thrown) : M A :=
  if instanceof_Error error
  then throw (new_Error (prefix ++ message_of error))
  else throw error.

(* ---------------------------------------------------------------- *)
(** ** parseDocumentWithUnstructured *)

Definition parseDocumentWithUnstructured (file : File)
  : M (list UnstructuredElement) :=
  let apiKey := or_undefined (NEXT_PUBLIC_UNSTRUCTURED_API_KEY world) in
  let apiUrl :=
    or_string (or_undefined (NEXT_PUBLIC_UNSTRUCTURED_API_URL world))
              (lit "https://api.unstructured.io/general/v0/general") in
  if negb (truthy_string apiKey) then
    throw (new_Error (lit "Unstructured API key not configured. Please set NEXT_PUBLIC_UNSTRUCTURED_API_KEY environment variable."))
  else
    let formData : FormData :=
      [ (lit "files", FormFile file);
        (lit "strategy", FormString (lit "hi_res"));
        (lit "coordinates", FormString (lit "true")) ] in
    try_catch
      (response <- fetch apiUrl
           (Some (mkRequestInit (lit "POST")
                                [(lit "unstructured-api-key", apiKey)]
                                formData)) ;;
       if negb (ok response) then
         errorText <- await (text response) ;;
         throw (new_Error
                  (lit "Unstructured API request failed: "
                   ++ string_of_N (status response) ++ lit " "
                   ++ statusText response ++ lit " - " ++ errorText))
       else
         elements <- await (json response) ;;
         ret elements)
      (rethrow (lit "Failed to parse document with Unstructured API: ")).

(* ---------------------------------------------------------------- *)
(** ** readDocument and readPdf *)

Definition isEmptySpace (textItem : TextItem) : bool :=
  negb (TextItem.hasEOL textItem)
  && is_empty_string (trim (TextItem.text textItem)).

Definition readDocument (file : File) : M TextItems :=
  try_catch
    (elements <- parseDocumentWithUnstructured file ;;
     textItems <- eval (convertUnstructuredToTextItems (spread_limit world)
                                                        elements) ;;
     let textItems :=
       filter (fun textItem => negb (isEmptySpace textItem)) textItems in
     ret textItems)
    (rethrow (lit "Failed to read document: ")).

(** [fileUrl.split('/').pop() || 'document'] *)
Definition filename_of_url (fileUrl : JsString) : JsString :=
  or_string (or_undefined (pop (split 47%N fileUrl))) (lit "document").

(** The last statement of the try block is [return readDocument(file)]
    with no [await]: the promise of [readDocument] becomes the result of
    [readPdf] after the block is left, so its rejection does not pass
    through the catch clause. *)
Definition readPdf (fileUrl : JsString) : M TextItems :=
  file <- try_catch
            (response <- fetch fileUrl None ;;
             blob <- await (blob response) ;;
             let filename := filename_of_url fileUrl in
             let file := mkFile [blob] filename (blob_type blob) in
             ret file)
            (rethrow (lit "Failed to read PDF from URL: ")) ;;
  readDocument file.

(* ---------------------------------------------------------------- *)
(** ** The pipeline entry points *)

(** A call of a downstream stage: logged, then applied. *)
Definition call {A B} (ev : A -> Event) (f : A -> B) (a : A) : M B :=
  ([ev a], Ok (f a)).

Definition parseResumeFromPdf (fileUrl : JsString) : M Resume :=
  textItems <- readPdf fileUrl ;;
  lines <- call CallGroupTextItemsIntoLines groupTextItemsIntoLines
                textItems ;;
  sections <- call CallGroupLinesIntoSections groupLinesIntoSections
                   lines ;;
  resume <- call CallExtractResumeFromSections extractResumeFromSections
                 sections ;;
  ret resume.

Definition parseResumeFromFile (file : File) : M Resume :=
  textItems <- readDocument file ;;
  lines <- call CallGroupTextItemsIntoLines groupTextItemsIntoLines
                textItems ;;
  sections <- call CallGroupLinesIntoSections groupLinesIntoSections
                   lines ;;
  resume <- call CallExtractResumeFromSections extractResumeFromSections
                 sections ;;
  ret resume.

End Pipeline.

(* ================================================================== *)
(** ** A store of arrays: the two array calls of the converter

    [elements.filter(f)] and [arr.map(g)] read their receiver and allocate
    the array they return; the callbacks of the converter only read the
    fields of the element they are given. *)

Module Store.

Inductive Cell :=
| ElementArray (elements : list UnstructuredElement)
| TextItemArray (textItems : TextItems).

Definition Loc := nat.
Definition Heap := list Cell.

Definition read (h : Heap) (l : Loc) : option Cell := nth_error h l.

(** A fresh array: the next free location. *)
Definition alloc (c : Cell) (h : Heap) : Heap * Loc :=
  (h ++ [c], List.length h).

(** [arr.filter(pred)] on an array of elements. *)
Definition Array_filter (pred : UnstructuredElement -> bool)
           (arr : Loc) (h : Heap) : option (Heap * Loc) :=
  match read h arr with
  | Some (ElementArray elements) =>
      Some (alloc (ElementArray (filter pred elements)) h)
  | _ => None
  end.

(** [arr.map(callback)] from an array of elements to an array of text
    items; when the callback throws, no array is returned. *)
Definition Array_map (callback : UnstructuredElement -> Result TextItem)
           (arr : Loc) (h : Heap) : option (Heap * Result Loc) :=
  match read h arr with
  | Some (ElementArray elements) =>
      match Array_map callback elements with
      | Ok textItems =>
          let '(h', l) := alloc (TextItemArray textItems) h in
          Some (h', Ok l)
      | Throw error => Some (h, Throw error)
      end
  | _ => None
  end.

(** convertUnstructuredToTextItems on references: [None] only when
    [elements] is not an array of elements, which the type of the
    parameter excludes. *)
Definition convertUnstructuredToTextItems (limit : positive)
           (elements : Loc) (h : Heap) : option (Heap * Result Loc) :=
  match Array_filter has_text elements h with
  | Some (h1, filtered) => Array_map (toTextItem limit) filtered h1
  | None => None
  end.

End Store.
(* ================================================================== *)
(** * Properties *)

(** ** Strings: what [trim] leaves *)

(** Empty or whitespace-only. *)
Definition is_blank (s : JsString) : bool := forallb isWhiteSpace s.

Lemma trimStart_nil_iff (s : JsString) :
  trimStart s = [] <-> is_blank s = true.
Proof.
  unfold is_blank.
  induction s as [|c rest IH]; simpl.
  - tauto.
  - destruct (isWhiteSpace c); simpl.
    + exact IH.
    + split; discriminate.
Qed.

Lemma trimStart_suffix (s : JsString) :
  exists ws, s = ws ++ trimStart s /\ is_blank ws = true.
Proof.
  induction s as [|c rest [ws [E B]]]; simpl.
  - exists []. auto.
  - destruct (isWhiteSpace c) eqn:W.
    + exists (c :: ws). simpl. unfold is_blank in *. simpl.
      rewrite W, B. split; [now f_equal | reflexivity].
    + exists []. auto.
Qed.

Lemma is_blank_app (a b : JsString) :
  is_blank (a ++ b) = is_blank a && is_blank b.
Proof. apply forallb_app. Qed.

Lemma is_blank_rev (s : JsString) : is_blank (rev s) = is_blank s.
Proof.
  induction s as [|c rest IH]; simpl; [reflexivity|].
  rewrite is_blank_app, IH. unfold is_blank. simpl.
  rewrite andb_true_r. apply andb_comm.
Qed.

Lemma trimStart_blank (s : JsString) :
  is_blank (trimStart s) = is_blank s.
Proof.
  destruct (trimStart_suffix s) as [ws [E B]].
  rewrite E at 2. rewrite is_blank_app, B. reflexivity.
Qed.

Lemma trim_blank (s : JsString) : is_blank (trim s) = is_blank s.
Proof.
  unfold trim, trimEnd.
  now rewrite is_blank_rev, trimStart_blank, is_blank_rev, trimStart_blank.
Qed.

Lemma trim_nil_iff (s : JsString) : trim s = [] <-> is_blank s = true.
Proof.
  split.
  - intros E. rewrite <- trim_blank, E. reflexivity.
  - intros B. unfold trim, trimEnd.
    apply trimStart_nil_iff in B. rewrite B. reflexivity.
Qed.

Lemma truthy_trim (s : JsString) :
  truthy_string (trim s) = negb (is_blank s).
Proof.
  destruct (is_blank s) eqn:B.
  - apply trim_nil_iff in B. now rewrite B.
  - destruct (trim s) eqn:T; [|reflexivity].
    apply trim_nil_iff in T. congruence.
Qed.

(** The filter callback keeps exactly the elements whose text is not
    blank. *)
Lemma has_text_spec (element : UnstructuredElement) :
  has_text element = negb (is_blank (UnstructuredElement.text element)).
Proof.
  unfold has_text. rewrite truthy_trim.
  destruct (UnstructuredElement.text element); reflexivity.
Qed.

(* ================================================================== *)
(** ** Numbers: order and subtraction of finite binary64 values *)

Module IEEE.

Local Open Scope Z_scope.

Abbreviation emin := (SpecFloat.emin prec emax).

Definition is_fin (f : spec_float) : bool :=
  match f with
  | S754_zero _ | S754_finite _ _ _ => true
  | S754_infinity _ | S754_nan => false
  end.

(** The value of a finite binary64 number in units of [2^emin]: every
    finite double is an integer multiple of the smallest subnormal. *)
Definition Zof (f : spec_float) : Z :=
  match f with
  | S754_finite s m e => cond_Zopp s (Zpos m * 2 ^ (e - emin))
  | _ => 0
  end.

Lemma digits2_pos_bounds (m : positive) :
  2 ^ (Zpos (digits2_pos m) - 1) <= Zpos m < 2 ^ Zpos (digits2_pos m).
Proof.
  induction m as [m IH|m IH|]; simpl digits2_pos.
  - rewrite Pos2Z.inj_succ.
    replace (Z.succ (Zpos (digits2_pos m)) - 1) with (Z.succ (Zpos (digits2_pos m) - 1)) by lia.
    rewrite !Z.pow_succ_r by lia. lia.
  - rewrite Pos2Z.inj_succ.
    replace (Z.succ (Zpos (digits2_pos m)) - 1) with (Z.succ (Zpos (digits2_pos m) - 1)) by lia.
    rewrite !Z.pow_succ_r by lia. lia.
  - simpl. lia.
Qed.

Lemma valid_finite (s : bool) (m : positive) (e : Z) :
  valid_binary (S754_finite s m e) = true ->
  emin <= e /\ Zpos m < 2 ^ prec /\ (emin < e -> 2 ^ (prec - 1) <= Zpos m).
Proof.
  unfold SpecFloat.valid_binary, bounded, canonical_mantissa, fexp.
  intros H. apply andb_true_iff in H. destruct H as [H _].
  apply Z.eqb_eq in H.
  pose proof (digits2_pos_bounds m) as [Hlo Hhi].
  set (d := Zpos (digits2_pos m)) in *.
  assert (Hd : d <= prec) by lia.
  split; [lia|]. split.
  - eapply Z.lt_le_trans; [exact Hhi|]. apply Z.pow_le_mono_r; lia.
  - intros He. assert (d = prec) by lia. subst d. rewrite <- H0. exact Hlo.
Qed.

Lemma scaled_lt (m1 m2 : positive) (e1 e2 : Z) :
  emin <= e1 -> e1 < e2 ->
  Zpos m1 < 2 ^ prec -> 2 ^ (prec - 1) <= Zpos m2 ->
  Zpos m1 * 2 ^ (e1 - emin) < Zpos m2 * 2 ^ (e2 - emin).
Proof.
  intros H1 H12 Hm1 Hm2.
  replace (e2 - emin) with ((e1 - emin) + (e2 - e1)) by lia.
  rewrite Z.pow_add_r by lia.
  assert (Hp : 0 < 2 ^ (e1 - emin)) by (apply Z.pow_pos_nonneg; lia).
  assert (Hq : 2 ^ 1 <= 2 ^ (e2 - e1)) by (apply Z.pow_le_mono_r; lia).
  change (2 ^ 1) with 2 in Hq.
  assert (Hprec : 2 ^ prec = 2 * 2 ^ (prec - 1)) by reflexivity.
  rewrite Hprec in Hm1.
  remember (2 ^ (prec - 1)) as Q eqn:HQ. clear HQ Hprec.
  remember (2 ^ (e1 - emin)) as A eqn:HA. clear HA.
  remember (2 ^ (e2 - e1)) as B eqn:HB. clear HB.
  assert (S1 : Zpos m1 * A < 2 * Q * A)
    by (apply Z.mul_lt_mono_pos_r; assumption).
  assert (S2 : Q * A <= Zpos m2 * A)
    by (apply Z.mul_le_mono_nonneg_r; lia).
  assert (S3 : (Zpos m2 * A) * 2 <= (Zpos m2 * A) * B)
    by (apply Z.mul_le_mono_nonneg_l; [apply Z.mul_nonneg_nonneg|]; lia).
  lia.
Qed.

Lemma compare_scaled (m1 m2 : positive) (e1 e2 : Z) :
  valid_binary (S754_finite false m1 e1) = true ->
  valid_binary (S754_finite false m2 e2) = true ->
  match e1 ?= e2 with
  | Lt => Lt
  | Gt => Gt
  | Eq => Pos.compare_cont Eq m1 m2
  end = (Zpos m1 * 2 ^ (e1 - emin) ?= Zpos m2 * 2 ^ (e2 - emin)).
Proof.
  intros V1 V2.
  apply valid_finite in V1. destruct V1 as (E1 & U1 & L1).
  apply valid_finite in V2. destruct V2 as (E2 & U2 & L2).
  destruct (Z.compare_spec e1 e2) as [E|E|E].
  - subst e2. fold (Pos.compare m1 m2).
    assert (Hp : 0 < 2 ^ (e1 - emin)) by (apply Z.pow_pos_nonneg; lia).
    rewrite <- Zmult_compare_compat_r by lia. reflexivity.
  - symmetry. apply Z.compare_lt_iff. apply scaled_lt; auto; lia.
  - symmetry. apply Z.compare_gt_iff. apply scaled_lt; auto; lia.
Qed.

Lemma scaled_pos (m : positive) (e : Z) : 0 < Zpos m * 2 ^ (e - emin) \/ e < emin.
Proof.
  destruct (Z_lt_le_dec e emin); [now right|left].
  apply Z.mul_pos_pos; [lia|]. apply Z.pow_pos_nonneg; lia.
Qed.

(** On valid finite numbers the comparison of the format is the
    comparison of the integer values. *)
Lemma SFcompare_Zof (a b : spec_float) :
  valid_binary a = true -> valid_binary b = true ->
  is_fin a = true -> is_fin b = true ->
  SFcompare a b = Some (Zof a ?= Zof b).
Proof.
  intros Va Vb Fa Fb.
  destruct a as [sa| | |sa ma ea]; try discriminate;
  destruct b as [sb| | |sb mb eb]; try discriminate;
  cbn [SFcompare Zof].
  - reflexivity.
  - pose proof (valid_finite _ _ _ Vb) as (E & _).
    destruct (scaled_pos mb eb) as [P|P]; [|lia].
    f_equal. destruct sb; cbn [cond_Zopp]; symmetry.
    + apply Z.compare_gt_iff. lia.
    + apply Z.compare_lt_iff. lia.
  - pose proof (valid_finite _ _ _ Va) as (E & _).
    destruct (scaled_pos ma ea) as [P|P]; [|lia].
    f_equal. destruct sa; cbn [cond_Zopp]; symmetry.
    + apply Z.compare_lt_iff. lia.
    + apply Z.compare_gt_iff. lia.
  - pose proof (valid_finite _ _ _ Va) as (Ea & _).
    pose proof (valid_finite _ _ _ Vb) as (Eb & _).
    destruct (scaled_pos ma ea) as [Pa|Pa]; [|lia].
    destruct (scaled_pos mb eb) as [Pb|Pb]; [|lia].
    f_equal. destruct sa, sb; cbn [cond_Zopp].
    + rewrite Z.compare_opp.
      rewrite <- (compare_scaled mb ma eb ea) by assumption.
      destruct (Z.compare_spec ea eb) as [E|E|E].
      * subst eb. rewrite Z.compare_refl.
        symmetry. apply (Pos.compare_antisym ma mb).
      * now rewrite (proj2 (Z.compare_gt_iff eb ea)) by lia.
      * now rewrite (proj2 (Z.compare_lt_iff eb ea)) by lia.
    + symmetry. apply Z.compare_lt_iff. lia.
    + symmetry. apply Z.compare_gt_iff. lia.
    + apply compare_scaled; assumption.
Qed.

(** *** Rounding keeps the sign *)

Definition nonneg_class (f : spec_float) : bool :=
  match f with
  | S754_zero _ | S754_finite false _ _ | S754_infinity false => true
  | _ => false
  end.

Lemma shr_1_nonneg (mrs : shr_record) :
  0 <= shr_m mrs -> 0 <= shr_m (shr_1 mrs).
Proof.
  destruct mrs as [m r s]. cbn [shr_m]. intros H.
  destruct m as [|[p|p|]|p]; cbn; lia.
Qed.

Lemma iter_pos_shr_1_nonneg (p : positive) (mrs : shr_record) :
  0 <= shr_m mrs -> 0 <= shr_m (iter_pos shr_1 p mrs).
Proof.
  revert mrs. induction p as [p IH|p IH|]; intros mrs H; cbn [iter_pos].
  - apply IH, IH, shr_1_nonneg, H.
  - apply IH, IH, H.
  - apply shr_1_nonneg, H.
Qed.

Lemma shr_fexp_nonneg (m e : Z) (l : location) :
  0 <= m -> 0 <= shr_m (fst (shr_fexp prec emax m e l)).
Proof.
  intros H. unfold shr_fexp, shr.
  assert (H0 : 0 <= shr_m (shr_record_of_loc m l))
    by (destruct l as [|[| |]]; exact H).
  destruct (fexp prec emax (Zdigits2 m + e) - e); cbn [fst]; auto.
  apply iter_pos_shr_1_nonneg, H0.
Qed.

Lemma round_nearest_even_nonneg (m : Z) (l : location) :
  0 <= m -> 0 <= round_nearest_even m l.
Proof.
  intros H. destruct l as [|[| |]]; cbn [round_nearest_even]; try lia.
  destruct (Z.even m); lia.
Qed.

Lemma binary_round_aux_nonneg (m e : Z) (l : location) :
  0 <= m -> nonneg_class (binary_round_aux prec emax false m e l) = true.
Proof.
  intros H. unfold binary_round_aux.
  pose proof (shr_fexp_nonneg e l H) as H1.
  destruct (shr_fexp prec emax m e l) as [mrs' e']. cbn [fst] in H1.
  pose proof (shr_fexp_nonneg e' loc_Exact
                (round_nearest_even_nonneg (loc_of_shr_record mrs') H1)) as H2.
  destruct (shr_fexp prec emax _ e' loc_Exact) as [mrs'' e'']. cbn [fst] in H2.
  destruct (shr_m mrs'') as [|q|q]; [reflexivity| |lia].
  destruct (e'' <=? emax - prec); reflexivity.
Qed.

Lemma binary_normalize_nonneg (m e : Z) :
  0 <= m -> nonneg_class (binary_normalize prec emax m e false) = true.
Proof.
  intros H. destruct m as [|p|p]; cbn [binary_normalize]; [reflexivity| |lia].
  unfold binary_round.
  destruct (shl_align p e _) as [mz ez].
  apply binary_round_aux_nonneg. lia.
Qed.

Lemma nonneg_class_leb (f : spec_float) :
  nonneg_class f = true -> SFleb (S754_zero false) f = true.
Proof. destruct f as [s|[|]| |[|] m e]; try discriminate; reflexivity. Qed.

(** *** Alignment *)

Lemma iter_xO (p m : positive) :
  Zpos (Pos.iter xO m p) = Zpos m * 2 ^ Zpos p.
Proof.
  revert m. induction p as [|p IH] using Pos.peano_ind; intros m.
  - cbn [Pos.iter]. rewrite Pos2Z.inj_xO. lia.
  - rewrite Pos.iter_succ, Pos2Z.inj_succ, Z.pow_succ_r by lia.
    rewrite Pos2Z.inj_xO, IH. lia.
Qed.

Lemma shl_align_value (m : positive) (e ez : Z) :
  ez <= e -> Zpos (fst (shl_align m e ez)) = Zpos m * 2 ^ (e - ez).
Proof.
  intros H. unfold shl_align.
  destruct (ez - e) as [|d|d] eqn:D; cbn [fst].
  - replace (e - ez) with 0 by lia. lia.
  - lia.
  - rewrite iter_xO. f_equal. f_equal. lia.
Qed.

Lemma aligned_Zof (s : bool) (m : positive) (e ez : Z) :
  emin <= ez -> ez <= e ->
  Zof (S754_finite s m e)
  = cond_Zopp s (Zpos (fst (shl_align m e ez))) * 2 ^ (ez - emin).
Proof.
  intros H1 H2. cbn [Zof]. rewrite shl_align_value by exact H2.
  replace (e - emin) with ((e - ez) + (ez - emin)) by lia.
  rewrite Z.pow_add_r by lia.
  destruct s; cbn [cond_Zopp]; lia.
Qed.

(** The difference of two finite numbers, the second one not above the
    first, is [+0], positive or [+Infinity]: never negative, never NaN. *)
Lemma SFsub_nonneg (a b : spec_float) :
  valid_binary a = true -> valid_binary b = true ->
  is_fin a = true -> is_fin b = true ->
  Zof b <= Zof a ->
  nonneg_class (SF64sub a b) = true.
Proof.
  intros Va Vb Fa Fb H.
  destruct a as [sa| | |sa ma ea]; try discriminate;
  destruct b as [sb| | |sb mb eb]; try discriminate;
  unfold SF64sub; cbn [SFsub].
  - destruct sa, sb; reflexivity.
  - pose proof (valid_finite _ _ _ Vb) as (E & _).
    destruct (scaled_pos mb eb) as [P|P]; [|lia].
    cbn [Zof] in H. destruct sb; cbn [cond_Zopp] in H; [reflexivity|lia].
  - pose proof (valid_finite _ _ _ Va) as (E & _).
    destruct (scaled_pos ma ea) as [P|P]; [|lia].
    cbn [Zof] in H. destruct sa; cbn [cond_Zopp] in H; [lia|reflexivity].
  - pose proof (valid_finite _ _ _ Va) as (Ea & _).
    pose proof (valid_finite _ _ _ Vb) as (Eb & _).
    apply binary_normalize_nonneg.
    set (ez := Z.min ea eb).
    rewrite (aligned_Zof sa ma (ez := ez)) in H by (unfold ez; lia).
    rewrite (aligned_Zof sb mb (ez := ez)) in H by (unfold ez; lia).
    assert (Hp : 0 < 2 ^ (ez - emin))
      by (apply Z.pow_pos_nonneg; unfold ez; lia).
    remember (2 ^ (ez - emin)) as A eqn:HA. clear HA.
    nia.
Qed.

End IEEE.

Module FloatFacts.

Import IEEE.

Local Open Scope float_scope.

Definition Zval (f : float) : Z := Zof (Prim2SF f).

Lemma is_nan_spec (f : float) :
  is_nan f = match Prim2SF f with S754_nan => true | _ => false end.
Proof.
  unfold is_nan. rewrite eqb_spec. unfold SFeqb.
  pose proof (Prim2SF_valid f) as V.
  destruct (Prim2SF f) as [s|[|]| |[|] m e]; cbn [SFcompare]; try reflexivity.
  - rewrite Z.compare_refl. fold (Pos.compare m m).
    now rewrite Pos.compare_refl.
  - rewrite Z.compare_refl. fold (Pos.compare m m).
    now rewrite Pos.compare_refl.
Qed.

Lemma is_infinity_spec (f : float) :
  is_infinity f = match Prim2SF f with S754_infinity _ => true | _ => false end.
Proof.
  unfold is_infinity. rewrite eqb_spec, abs_spec.
  change (Prim2SF infinity) with (S754_infinity false).
  destruct (Prim2SF f) as [s|[|]| |[|] m e]; reflexivity.
Qed.

Lemma is_finite_spec (f : float) :
  is_finite f = is_fin (Prim2SF f).
Proof.
  unfold is_finite. rewrite is_nan_spec, is_infinity_spec.
  destruct (Prim2SF f); reflexivity.
Qed.

Lemma finite_not_nan (f : float) : is_finite f = true -> is_nan f = false.
Proof.
  unfold is_finite. destruct (is_nan f); [discriminate|reflexivity].
Qed.

Lemma ltb_Zval (f g : float) :
  is_finite f = true -> is_finite g = true ->
  (f <? g) = (Zval f <? Zval g)%Z.
Proof.
  intros Ff Fg. rewrite is_finite_spec in Ff, Fg.
  rewrite ltb_spec. unfold SFltb, Zval.
  rewrite SFcompare_Zof by auto using Prim2SF_valid.
  unfold Z.ltb. reflexivity.
Qed.

Lemma leb_Zval (f g : float) :
  is_finite f = true -> is_finite g = true ->
  (f <=? g) = (Zval f <=? Zval g)%Z.
Proof.
  intros Ff Fg. rewrite is_finite_spec in Ff, Fg.
  rewrite leb_spec. unfold SFleb, Zval.
  rewrite SFcompare_Zof by auto using Prim2SF_valid.
  unfold Z.leb. destruct (Zof (Prim2SF f) ?= Zof (Prim2SF g))%Z; reflexivity.
Qed.

(** [a - b >= 0] for finite [b <= a]. *)
Lemma sub_nonneg (a b : float) :
  is_finite a = true -> is_finite b = true ->
  (Zval b <= Zval a)%Z ->
  (0 <=? a - b) = true.
Proof.
  intros Fa Fb H. rewrite is_finite_spec in Fa, Fb.
  rewrite leb_spec, sub_spec.
  change (Prim2SF 0) with (S754_zero false).
  apply nonneg_class_leb.
  apply SFsub_nonneg; auto using Prim2SF_valid.
Qed.

Lemma is_pos_zero_spec (f : float) :
  is_pos_zero f = true -> Prim2SF f = S754_zero false.
Proof.
  unfold is_pos_zero. rewrite classify_spec. unfold SF64classify, SFclassify.
  destruct (Prim2SF f) as [[|]|[|]| |[|] m e]; try discriminate; try reflexivity;
    destruct (Z.eqb _ _); discriminate.
Qed.

Lemma is_neg_zero_spec (f : float) :
  is_neg_zero f = true -> f = neg_zero.
Proof.
  unfold is_neg_zero. rewrite classify_spec. unfold SF64classify, SFclassify.
  intros H. apply Prim2SF_inj. change (Prim2SF neg_zero) with (S754_zero true).
  destruct (Prim2SF f) as [[|]|[|]| |[|] m e]; try discriminate; try reflexivity;
    destruct (Z.eqb _ _); discriminate.
Qed.

Lemma is_pos_zero_eq (f : float) : is_pos_zero f = true -> f = zero.
Proof.
  intros H. apply Prim2SF_inj. rewrite (is_pos_zero_spec _ H). reflexivity.
Qed.

End FloatFacts.

Module Extrema.

Import IEEE FloatFacts.

Local Open Scope float_scope.

Definition all_finite (l : list float) : Prop :=
  Forall (fun v => is_finite v = true) l.

Lemma min_loop_spec (rest : list float) :
  forall lowest,
    is_finite lowest = true -> all_finite rest ->
    let r := min_loop lowest rest in
    is_finite r = true
    /\ (Zval r <= Zval lowest)%Z
    /\ Forall (fun v => (Zval r <= Zval v)%Z) rest
    /\ (r = lowest \/ In r rest).
Proof.
  induction rest as [|number rest IH]; intros lowest Fl Fr; cbn zeta.
  - cbn [min_loop]. repeat split; auto; lia.
  - inversion Fr as [|? ? Fn Fr']; subst.
    cbn [min_loop]. rewrite (@finite_not_nan _ Fn).
    set (l1 := if is_neg_zero number && is_pos_zero lowest then neg_zero
               else lowest).
    assert (H1 : is_finite l1 = true /\ Zval l1 = Zval lowest
                 /\ (l1 = lowest \/ l1 = number)).
    { unfold l1. destruct (is_neg_zero number) eqn:Nz; cbn [andb]; auto.
      destruct (is_pos_zero lowest) eqn:Pz; auto.
      apply is_neg_zero_spec in Nz. apply is_pos_zero_eq in Pz. subst.
      repeat split; auto. }
    destruct H1 as (F1 & V1 & M1).
    set (l2 := if number <? l1 then number else l1).
    assert (H2 : is_finite l2 = true /\ (Zval l2 <= Zval l1)%Z
                 /\ (Zval l2 <= Zval number)%Z
                 /\ (l2 = l1 \/ l2 = number)).
    { unfold l2. rewrite (@ltb_Zval _ _ Fn F1).
      destruct (Z.ltb_spec (Zval number) (Zval l1)); repeat split; auto; lia. }
    destruct H2 as (F2 & V2 & V2' & M2).
    destruct (IH l2 F2 Fr') as (F & V & A & M). cbn zeta in *.
    repeat split; auto.
    + lia.
    + constructor; [lia|exact A].
    + destruct M as [M|M]; [|right; now right].
      rewrite M. destruct M2 as [M2|M2]; rewrite M2.
      * destruct M1 as [M1|M1]; rewrite M1; [now left|right; now left].
      * right; now left.
Qed.

Lemma max_loop_spec (rest : list float) :
  forall highest,
    is_finite highest = true -> all_finite rest ->
    let r := max_loop highest rest in
    is_finite r = true
    /\ (Zval highest <= Zval r)%Z
    /\ Forall (fun v => (Zval v <= Zval r)%Z) rest
    /\ (r = highest \/ In r rest).
Proof.
  induction rest as [|number rest IH]; intros highest Fl Fr; cbn zeta.
  - cbn [max_loop]. repeat split; auto; lia.
  - inversion Fr as [|? ? Fn Fr']; subst.
    cbn [max_loop]. rewrite (@finite_not_nan _ Fn).
    set (l1 := if is_pos_zero number && is_neg_zero highest then zero
               else highest).
    assert (H1 : is_finite l1 = true /\ Zval l1 = Zval highest
                 /\ (l1 = highest \/ l1 = number)).
    { unfold l1. destruct (is_pos_zero number) eqn:Pz; cbn [andb]; auto.
      destruct (is_neg_zero highest) eqn:Nz; auto.
      apply is_neg_zero_spec in Nz. apply is_pos_zero_eq in Pz. subst.
      repeat split; auto. }
    destruct H1 as (F1 & V1 & M1).
    set (l2 := if l1 <? number then number else l1).
    assert (H2 : is_finite l2 = true /\ (Zval l1 <= Zval l2)%Z
                 /\ (Zval number <= Zval l2)%Z
                 /\ (l2 = l1 \/ l2 = number)).
    { unfold l2. rewrite (@ltb_Zval _ _ F1 Fn).
      destruct (Z.ltb_spec (Zval l1) (Zval number)); repeat split; auto; lia. }
    destruct H2 as (F2 & V2 & V2' & M2).
    destruct (IH l2 F2 Fr') as (F & V & A & M). cbn zeta in *.
    repeat split; auto.
    + lia.
    + constructor; [lia|exact A].
    + destruct M as [M|M]; [|right; now right].
      rewrite M. destruct M2 as [M2|M2]; rewrite M2.
      * destruct M1 as [M1|M1]; rewrite M1; [now left|right; now left].
      * right; now left.
Qed.

Lemma min_loop_start (number : float) (rest : list float) :
  is_finite number = true ->
  min_loop infinity (number :: rest) = min_loop number rest.
Proof.
  intros Fn. cbn [min_loop]. rewrite (@finite_not_nan _ Fn).
  change (is_pos_zero infinity) with false. rewrite andb_false_r.
  replace (number <? infinity) with true; [reflexivity|].
  rewrite ltb_spec. change (Prim2SF infinity) with (S754_infinity false).
  rewrite is_finite_spec in Fn.
  destruct (Prim2SF number) as [s|s| |s m e]; try discriminate; reflexivity.
Qed.

Lemma max_loop_start (number : float) (rest : list float) :
  is_finite number = true ->
  max_loop neg_infinity (number :: rest) = max_loop number rest.
Proof.
  intros Fn. cbn [max_loop]. rewrite (@finite_not_nan _ Fn).
  change (is_neg_zero neg_infinity) with false. rewrite andb_false_r.
  replace (neg_infinity <? number) with true; [reflexivity|].
  rewrite ltb_spec. change (Prim2SF neg_infinity) with (S754_infinity true).
  rewrite is_finite_spec in Fn.
  destruct (Prim2SF number) as [s|s| |s m e]; try discriminate; reflexivity.
Qed.

(** The arguments of a [Math.min]/[Math.max] call that are all present
    and finite. *)
Definition finite_args (args : list (option float)) : bool :=
  forallb (fun v => match v with Some n => is_finite n | None => false end)
          args.

Lemma finite_args_coerced (args : list (option float)) :
  finite_args args = true -> all_finite (map ToNumber args).
Proof.
  unfold finite_args, all_finite. intros H.
  rewrite forallb_forall in H. apply Forall_forall. intros v Hv.
  apply in_map_iff in Hv. destruct Hv as (a & <- & Ha).
  specialize (H a Ha). destruct a; [exact H|discriminate].
Qed.

(** On finite arguments, at least one of them, [Math.min] returns one of
    the arguments, a finite number below all of them. *)
Lemma Math_min_spec (args : list (option float)) :
  args <> [] -> finite_args args = true ->
  is_finite (Math_min args) = true
  /\ In (Some (Math_min args)) args
  /\ Forall (fun v => (Math_min args <=? ToNumber v) = true) args.
Proof.
  intros Hne Hf. pose proof (@finite_args_coerced _ Hf) as Fa.
  unfold Math_min. destruct args as [|a args]; [congruence|].
  cbn [map] in *. inversion Fa as [|? ? Fn Fr]; subst.
  rewrite (@min_loop_start _ _ Fn).
  destruct (@min_loop_spec _ _ Fn Fr) as (F & V & A & M). cbn zeta in *.
  split; [exact F|]. split.
  - assert (In (min_loop (ToNumber a) (map ToNumber args))
               (map ToNumber (a :: args))) as HIn.
    { destruct M as [M|M]; [left; now rewrite M|right; exact M]. }
    apply in_map_iff in HIn. destruct HIn as (v & Ev & Hv).
    unfold finite_args in Hf. rewrite forallb_forall in Hf.
    specialize (Hf v Hv). destruct v; [|discriminate].
    cbn in Ev. rewrite <- Ev. exact Hv.
  - constructor.
    + rewrite leb_Zval by assumption. apply Z.leb_le. exact V.
    + apply Forall_forall. intros v Hv.
      rewrite Forall_forall in A, Fr.
      assert (Hm : In (ToNumber v) (map ToNumber args)) by now apply in_map.
      rewrite leb_Zval by auto. apply Z.leb_le. auto.
Qed.

Lemma Math_max_spec (args : list (option float)) :
  args <> [] -> finite_args args = true ->
  is_finite (Math_max args) = true
  /\ In (Some (Math_max args)) args
  /\ Forall (fun v => (ToNumber v <=? Math_max args) = true) args.
Proof.
  intros Hne Hf. pose proof (@finite_args_coerced _ Hf) as Fa.
  unfold Math_max. destruct args as [|a args]; [congruence|].
  cbn [map] in *. inversion Fa as [|? ? Fn Fr]; subst.
  rewrite (@max_loop_start _ _ Fn).
  destruct (@max_loop_spec _ _ Fn Fr) as (F & V & A & M). cbn zeta in *.
  split; [exact F|]. split.
  - assert (In (max_loop (ToNumber a) (map ToNumber args))
               (map ToNumber (a :: args))) as HIn.
    { destruct M as [M|M]; [left; now rewrite M|right; exact M]. }
    apply in_map_iff in HIn. destruct HIn as (v & Ev & Hv).
    unfold finite_args in Hf. rewrite forallb_forall in Hf.
    specialize (Hf v Hv). destruct v; [|discriminate].
    cbn in Ev. rewrite <- Ev. exact Hv.
  - constructor.
    + rewrite leb_Zval by assumption. apply Z.leb_le. exact V.
    + apply Forall_forall. intros v Hv.
      rewrite Forall_forall in A, Fr.
      assert (Hm : In (ToNumber v) (map ToNumber args)) by now apply in_map.
      rewrite leb_Zval by auto. apply Z.leb_le. auto.
Qed.

(** The extent [Math.max(...args) - Math.min(...args)] of finite
    arguments is a number [>= 0]. *)
Lemma extent_nonneg (args : list (option float)) :
  args <> [] -> finite_args args = true ->
  (0 <=? Math_max args - Math_min args) = true.
Proof.
  intros Hne Hf.
  destruct (@Math_min_spec _ Hne Hf) as (Fmin & _ & Amin).
  destruct (@Math_max_spec _ Hne Hf) as (Fmax & _ & Amax).
  apply sub_nonneg; auto.
  destruct args as [|a args]; [congruence|].
  inversion Amin as [|? ? Hmin _]; inversion Amax as [|? ? Hmax _]; subst.
  assert (Fa : is_finite (ToNumber a) = true).
  { unfold finite_args in Hf. cbn [forallb] in Hf.
    apply andb_true_iff in Hf. destruct Hf as [Hf _].
    destruct a; [exact Hf|discriminate]. }
  rewrite leb_Zval in Hmin, Hmax by assumption.
  apply Z.leb_le in Hmin, Hmax. lia.
Qed.

End Extrema.

(* ================================================================== *)
(** ** Numbers: the order with the infinities *)

Module IEEEExt.

Import IEEE.
Local Open Scope Z_scope.

(** A bound above the value of every finite number. *)
Definition Zinf : Z := 2 ^ (emax - emin).

(** [Zof] with the two infinities below and above every finite value. *)
Definition Zext (f : spec_float) : Z :=
  match f with
  | S754_infinity false => Zinf
  | S754_infinity true => - Zinf
  | _ => Zof f
  end.

Definition not_nan (f : spec_float) : bool :=
  match f with S754_nan => false | _ => true end.

Lemma Zof_bound (f : spec_float) :
  valid_binary f = true -> - Zinf < Zof f < Zinf.
Proof.
  assert (HB : 0 < Zinf) by reflexivity.
  destruct f as [s|s| |s m e]; cbn [Zof]; try lia.
  intros V. pose proof (valid_finite _ _ _ V) as (E & U & _).
  unfold SpecFloat.valid_binary, bounded in V.
  apply andb_true_iff in V. destruct V as [_ V]. apply Z.leb_le in V.
  assert (P : 0 < 2 ^ (e - emin)) by (apply Z.pow_pos_nonneg; lia).
  assert (Q : 2 ^ (e - emin) <= 2 ^ (emax - prec - emin))
    by (apply Z.pow_le_mono_r; lia).
  assert (R : Zinf = 2 ^ prec * 2 ^ (emax - prec - emin)) by reflexivity.
  assert (S1 : Zpos m * 2 ^ (e - emin) < 2 ^ prec * 2 ^ (e - emin))
    by (apply Z.mul_lt_mono_pos_r; assumption).
  assert (S2 : 2 ^ prec * 2 ^ (e - emin)
               <= 2 ^ prec * 2 ^ (emax - prec - emin))
    by (apply Z.mul_le_mono_nonneg_l; [apply Z.pow_nonneg; lia|exact Q]).
  assert (S0 : 0 < Zpos m * 2 ^ (e - emin)) by (apply Z.mul_pos_pos; lia).
  rewrite R. destruct s; cbn [cond_Zopp]; lia.
Qed.

Lemma SFcompare_Zext (a b : spec_float) :
  valid_binary a = true -> valid_binary b = true ->
  not_nan a = true -> not_nan b = true ->
  SFcompare a b = Some (Zext a ?= Zext b).
Proof.
  intros Va Vb Na Nb.
  assert (HB : 0 < Zinf) by reflexivity.
  pose proof (Zof_bound a Va) as Ba. pose proof (Zof_bound b Vb) as Bb.
  destruct a as [sa|sa| |sa ma ea]; try discriminate;
  destruct b as [sb|sb| |sb mb eb]; try discriminate;
  try (apply SFcompare_Zof; auto; fail);
  cbn [SFcompare Zext]; f_equal; symmetry;
  repeat match goal with s : bool |- _ => destruct s end;
  first [ apply Z.compare_eq_iff; lia
        | apply Z.compare_lt_iff; lia
        | apply Z.compare_gt_iff; lia ].
Qed.

Definition nonneg_or_nan (f : spec_float) : bool :=
  match f with S754_nan => true | _ => nonneg_class f end.

Lemma SFsub_nonneg_or_nan (a b : spec_float) :
  valid_binary a = true -> valid_binary b = true ->
  not_nan a = true -> not_nan b = true ->
  Zext b <= Zext a ->
  nonneg_or_nan (SF64sub a b) = true.
Proof.
  intros Va Vb Na Nb H.
  assert (HB : 0 < Zinf) by reflexivity.
  pose proof (Zof_bound a Va) as Ba. pose proof (Zof_bound b Vb) as Bb.
  destruct a as [sa|sa| |sa ma ea]; try discriminate;
  destruct b as [sb|sb| |sb mb eb]; try discriminate;
  try (assert (F : nonneg_class (SF64sub _ _) = true)
        by (apply SFsub_nonneg; [exact Va|exact Vb|reflexivity|reflexivity|exact H]);
       unfold nonneg_or_nan; rewrite F;
       match goal with |- match ?x with _ => _ end = _ => destruct x end;
       reflexivity);
  cbn [Zext] in H; unfold SF64sub; cbn [SFsub];
  repeat match goal with s : bool |- _ => destruct s end;
  try reflexivity; cbn [Zof] in *; lia.
Qed.

Lemma nonneg_or_nan_ltb (f : spec_float) :
  nonneg_or_nan f = true -> SFltb f (S754_zero false) = false.
Proof. destruct f as [s|[|]| |[|] m e]; try discriminate; reflexivity. Qed.

End IEEEExt.

Module ExtremaExt.

Import IEEE FloatFacts IEEEExt.
Local Open Scope float_scope.

Definition Zx (f : float) : Z := Zext (Prim2SF f).

Lemma not_nan_spec (f : float) :
  is_nan f = false -> not_nan (Prim2SF f) = true.
Proof. rewrite is_nan_spec. destruct (Prim2SF f); auto. Qed.

Lemma ltb_Zx (f g : float) :
  is_nan f = false -> is_nan g = false ->
  (f <? g) = (Zx f <? Zx g)%Z.
Proof.
  intros Nf Ng. rewrite ltb_spec. unfold SFltb, Zx.
  rewrite SFcompare_Zext
    by auto using Prim2SF_valid, not_nan_spec.
  unfold Z.ltb. reflexivity.
Qed.

(** [Math.min] and [Math.max] return [NaN] as soon as one argument is. *)
Lemma min_loop_nan (coerced : list float) :
  forall lowest,
    existsb is_nan coerced = true -> min_loop lowest coerced = nan.
Proof.
  induction coerced as [|number rest IH]; intros lowest H; [discriminate|].
  cbn [min_loop existsb] in *.
  destruct (is_nan number); [reflexivity|]. now apply IH.
Qed.

Lemma max_loop_nan (coerced : list float) :
  forall highest,
    existsb is_nan coerced = true -> max_loop highest coerced = nan.
Proof.
  induction coerced as [|number rest IH]; intros highest H; [discriminate|].
  cbn [max_loop existsb] in *.
  destruct (is_nan number); [reflexivity|]. now apply IH.
Qed.

Lemma min_loop_bound (rest : list float) :
  forall lowest,
    is_nan lowest = false -> existsb is_nan rest = false ->
    let r := min_loop lowest rest in
    is_nan r = false
    /\ (Zx r <= Zx lowest)%Z
    /\ Forall (fun v => (Zx r <= Zx v)%Z) rest.
Proof.
  induction rest as [|number rest IH]; intros lowest Nl Nr; cbn zeta.
  - cbn [min_loop]. repeat split; auto; lia.
  - cbn [existsb] in Nr. apply orb_false_iff in Nr. destruct Nr as [Nn Nr].
    cbn [min_loop]. rewrite Nn.
    set (l1 := if is_neg_zero number && is_pos_zero lowest then neg_zero
               else lowest).
    assert (H1 : is_nan l1 = false /\ Zx l1 = Zx lowest).
    { unfold l1. destruct (is_neg_zero number); cbn [andb]; auto.
      destruct (is_pos_zero lowest) eqn:Pz; auto.
      apply is_pos_zero_eq in Pz. subst. split; reflexivity. }
    destruct H1 as (N1 & V1).
    set (l2 := if number <? l1 then number else l1).
    assert (H2 : is_nan l2 = false /\ (Zx l2 <= Zx l1)%Z
                 /\ (Zx l2 <= Zx number)%Z).
    { unfold l2. rewrite (@ltb_Zx _ _ Nn N1).
      destruct (Z.ltb_spec (Zx number) (Zx l1)); repeat split; auto; lia. }
    destruct H2 as (N2 & V2 & V2').
    destruct (IH l2 N2 Nr) as (N & V & A). cbn zeta in *.
    repeat split; auto; [lia|].
    constructor; [lia|exact A].
Qed.

Lemma max_loop_bound (rest : list float) :
  forall highest,
    is_nan highest = false -> existsb is_nan rest = false ->
    let r := max_loop highest rest in
    is_nan r = false
    /\ (Zx highest <= Zx r)%Z
    /\ Forall (fun v => (Zx v <= Zx r)%Z) rest.
Proof.
  induction rest as [|number rest IH]; intros highest Nl Nr; cbn zeta.
  - cbn [max_loop]. repeat split; auto; lia.
  - cbn [existsb] in Nr. apply orb_false_iff in Nr. destruct Nr as [Nn Nr].
    cbn [max_loop]. rewrite Nn.
    set (l1 := if is_pos_zero number && is_neg_zero highest then zero
               else highest).
    assert (H1 : is_nan l1 = false /\ Zx l1 = Zx highest).
    { unfold l1. destruct (is_pos_zero number); cbn [andb]; auto.
      destruct (is_neg_zero highest) eqn:Nz; auto.
      apply is_neg_zero_spec in Nz. subst. split; reflexivity. }
    destruct H1 as (N1 & V1).
    set (l2 := if l1 <? number then number else l1).
    assert (H2 : is_nan l2 = false /\ (Zx l1 <= Zx l2)%Z
                 /\ (Zx number <= Zx l2)%Z).
    { unfold l2. rewrite (@ltb_Zx _ _ N1 Nn).
      destruct (Z.ltb_spec (Zx l1) (Zx number)); repeat split; auto; lia. }
    destruct H2 as (N2 & V2 & V2').
    destruct (IH l2 N2 Nr) as (N & V & A). cbn zeta in *.
    repeat split; auto; [lia|].
    constructor; [lia|exact A].
Qed.

Lemma sub_nan_l (b : float) : nan - b = nan.
Proof.
  apply Prim2SF_inj. rewrite sub_spec.
  change (Prim2SF nan) with S754_nan. reflexivity.
Qed.

Lemma sub_nan_r (a : float) : a - nan = nan.
Proof.
  apply Prim2SF_inj. rewrite sub_spec.
  change (Prim2SF nan) with S754_nan.
  unfold SF64sub. destruct (Prim2SF a); reflexivity.
Qed.

(** The extent of a non-empty argument list is never below zero. *)
Lemma extent_not_negative (args : list (option float)) :
  args <> [] -> (Math_max args - Math_min args <? 0) = false.
Proof.
  intros Hne. unfold Math_max, Math_min.
  destruct (existsb is_nan (map ToNumber args)) eqn:E.
  - rewrite (@max_loop_nan _ neg_infinity E), sub_nan_l. reflexivity.
  - destruct (@min_loop_bound _ infinity eq_refl E) as (Nmin & _ & Amin).
    destruct (@max_loop_bound _ neg_infinity eq_refl E) as (Nmax & _ & Amax).
    cbn zeta in *.
    rewrite ltb_spec, sub_spec. change (Prim2SF 0) with (S754_zero false).
    apply nonneg_or_nan_ltb.
    apply SFsub_nonneg_or_nan; auto using Prim2SF_valid, not_nan_spec.
    destruct args as [|a args]; [congruence|]. cbn [map] in *.
    inversion Amin; inversion Amax; subst. unfold Zx in *. lia.
Qed.

End ExtremaExt.


Module Least.

Import IEEE FloatFacts IEEEExt ExtremaExt.
Local Open Scope float_scope.

(** The arguments of a call that are all present and are numbers. *)
Definition numbers (args : list (option float)) : bool :=
  forallb (fun v => match v with Some n => negb (is_nan n) | None => false end)
          args.

Lemma numbers_coerced (args : list (option float)) :
  numbers args = true -> existsb is_nan (map ToNumber args) = false.
Proof.
  unfold numbers. induction args as [|a args IH]; [reflexivity|].
  cbn [forallb map existsb]. intros H.
  apply andb_true_iff in H. destruct H as [Ha Hr].
  rewrite (IH Hr). destruct a as [n|]; [|discriminate].
  cbn [ToNumber]. apply negb_true_iff in Ha. now rewrite Ha.
Qed.

Lemma numbers_In (args : list (option float)) (v : option float) :
  numbers args = true -> In v args ->
  exists n, v = Some n /\ is_nan n = false.
Proof.
  unfold numbers. rewrite forallb_forall. intros H Hin.
  specialize (H v Hin). destruct v as [n|]; [|discriminate].
  exists n. split; [reflexivity|]. now apply negb_true_iff.
Qed.

Lemma leb_Zx (f g : float) :
  is_nan f = false -> is_nan g = false ->
  (f <=? g) = (Zx f <=? Zx g)%Z.
Proof.
  intros Nf Ng. rewrite leb_spec. unfold SFleb, Zx.
  rewrite SFcompare_Zext by auto using Prim2SF_valid, not_nan_spec.
  unfold Z.leb.
  destruct (Zext (Prim2SF f) ?= Zext (Prim2SF g))%Z; reflexivity.
Qed.

Lemma Zx_top (v : float) :
  is_nan v = false -> (Zx infinity <= Zx v)%Z -> v = infinity.
Proof.
  intros Nv H. apply Prim2SF_inj.
  change (Prim2SF infinity) with (S754_infinity false).
  unfold Zx in H. change (Prim2SF infinity) with (S754_infinity false) in H.
  cbn [Zext] in H.
  pose proof (Zof_bound _ (Prim2SF_valid v)) as B.
  apply not_nan_spec in Nv.
  assert (HB : (0 < Zinf)%Z) by reflexivity.
  destruct (Prim2SF v) as [s|[|]| |s m e]; try discriminate;
    cbn [Zext] in H; try reflexivity; lia.
Qed.

Lemma Zx_bottom (v : float) :
  is_nan v = false -> (Zx v <= Zx neg_infinity)%Z -> v = neg_infinity.
Proof.
  intros Nv H. apply Prim2SF_inj.
  change (Prim2SF neg_infinity) with (S754_infinity true).
  unfold Zx in H.
  change (Prim2SF neg_infinity) with (S754_infinity true) in H.
  cbn [Zext] in H.
  pose proof (Zof_bound _ (Prim2SF_valid v)) as B.
  apply not_nan_spec in Nv.
  assert (HB : (0 < Zinf)%Z) by reflexivity.
  destruct (Prim2SF v) as [s|[|]| |s m e]; try discriminate;
    cbn [Zext] in H; try reflexivity; lia.
Qed.

Lemma min_loop_member (rest : list float) :
  forall lowest,
    existsb is_nan rest = false ->
    min_loop lowest rest = lowest \/ In (min_loop lowest rest) rest.
Proof.
  induction rest as [|number rest IH]; intros lowest Nr; [now left|].
  cbn [existsb] in Nr. apply orb_false_iff in Nr. destruct Nr as [Nn Nr].
  cbn [min_loop]. rewrite Nn.
  set (l1 := if is_neg_zero number && is_pos_zero lowest then neg_zero
             else lowest).
  assert (M1 : l1 = lowest \/ l1 = number).
  { unfold l1. destruct (is_neg_zero number) eqn:Nz; cbn [andb]; auto.
    destruct (is_pos_zero lowest); auto.
    apply is_neg_zero_spec in Nz. auto. }
  set (l2 := if number <? l1 then number else l1).
  assert (M2 : l2 = lowest \/ l2 = number).
  { unfold l2. destruct (number <? l1); [now right|exact M1]. }
  destruct (IH l2 Nr) as [M|M]; [|right; now right].
  rewrite M. destruct M2 as [M2|M2]; rewrite M2; [now left|right; now left].
Qed.

Lemma max_loop_member (rest : list float) :
  forall highest,
    existsb is_nan rest = false ->
    max_loop highest rest = highest \/ In (max_loop highest rest) rest.
Proof.
  induction rest as [|number rest IH]; intros highest Nr; [now left|].
  cbn [existsb] in Nr. apply orb_false_iff in Nr. destruct Nr as [Nn Nr].
  cbn [max_loop]. rewrite Nn.
  set (l1 := if is_pos_zero number && is_neg_zero highest then zero
             else highest).
  assert (M1 : l1 = highest \/ l1 = number).
  { unfold l1. destruct (is_pos_zero number) eqn:Pz; cbn [andb]; auto.
    destruct (is_neg_zero highest); auto.
    apply is_pos_zero_eq in Pz. auto. }
  set (l2 := if l1 <? number then number else l1).
  assert (M2 : l2 = highest \/ l2 = number).
  { unfold l2. destruct (l1 <? number); [now right|exact M1]. }
  destruct (IH l2 Nr) as [M|M]; [|right; now right].
  rewrite M. destruct M2 as [M2|M2]; rewrite M2; [now left|right; now left].
Qed.

Lemma In_coerced (args : list (option float)) (n : float) :
  numbers args = true -> In n (map ToNumber args) -> In (Some n) args.
Proof.
  intros Hn Hin. apply in_map_iff in Hin. destruct Hin as (v & E & Hv).
  destruct (numbers_In _ _ Hn Hv) as (m & -> & _). cbn in E. now subst.
Qed.

(** [v] is one of [args] and is [<=] each of them. *)
Definition least (v : float) (args : list (option float)) : Prop :=
  In (Some v) args
  /\ Forall (fun a => (v <=? ToNumber a) = true) args.

(** [v] is one of [args] and is [>=] each of them. *)
Definition greatest (v : float) (args : list (option float)) : Prop :=
  In (Some v) args
  /\ Forall (fun a => (ToNumber a <=? v) = true) args.

(** On numbers, at least one of them, [Math.min] returns the least
    argument. *)
Lemma Math_min_least (args : list (option float)) :
  args <> [] -> numbers args = true -> least (Math_min args) args.
Proof.
  intros Hne Hn. pose proof (numbers_coerced _ Hn) as E.
  unfold Math_min.
  destruct (@min_loop_bound _ infinity eq_refl E) as (Nr & _ & A).
  cbn zeta in *. set (r := min_loop infinity (map ToNumber args)) in *.
  assert (Hin : In (Some r) args).
  { destruct (min_loop_member _ infinity E) as [M|M]; fold r in M.
    - destruct args as [|a args]; [congruence|].
      destruct (numbers_In _ a Hn (or_introl eq_refl)) as (n & -> & Nn).
      cbn [map ToNumber] in A. inversion A as [|? ? Ha _]; subst.
      rewrite M in Ha. rewrite M. left. f_equal. now apply Zx_top.
    - now apply In_coerced. }
  split; [exact Hin|].
  apply Forall_forall. intros v Hv.
  destruct (numbers_In _ v Hn Hv) as (n & -> & Nn). cbn [ToNumber].
  rewrite leb_Zx by assumption. apply Z.leb_le.
  rewrite Forall_forall in A. apply A.
  apply in_map_iff. exists (Some n). auto.
Qed.

(** On numbers, at least one of them, [Math.max] returns the greatest
    argument. *)
Lemma Math_max_greatest (args : list (option float)) :
  args <> [] -> numbers args = true -> greatest (Math_max args) args.
Proof.
  intros Hne Hn. pose proof (numbers_coerced _ Hn) as E.
  unfold Math_max.
  destruct (@max_loop_bound _ neg_infinity eq_refl E) as (Nr & _ & A).
  cbn zeta in *. set (r := max_loop neg_infinity (map ToNumber args)) in *.
  assert (Hin : In (Some r) args).
  { destruct (max_loop_member _ neg_infinity E) as [M|M]; fold r in M.
    - destruct args as [|a args]; [congruence|].
      destruct (numbers_In _ a Hn (or_introl eq_refl)) as (n & -> & Nn).
      cbn [map ToNumber] in A. inversion A as [|? ? Ha _]; subst.
      rewrite M in Ha. rewrite M. left. f_equal. now apply Zx_bottom.
    - now apply In_coerced. }
  split; [exact Hin|].
  apply Forall_forall. intros v Hv.
  destruct (numbers_In _ v Hn Hv) as (n & -> & Nn). cbn [ToNumber].
  rewrite leb_Zx by assumption. apply Z.leb_le.
  rewrite Forall_forall in A. apply A.
  apply in_map_iff. exists (Some n). auto.
Qed.

End Least.

(* ================================================================== *)
(** ** What the converter returns when it returns *)

Section Value.

Local Open Scope float_scope.

(** The box of [bounding_box] when its four calls go through. *)
Definition box_of (c : Coordinates) : float * float * float * float :=
  let xs := column 0 (points c) in
  let ys := column 1 (points c) in
  (Math_min xs,
   or_number (layout_height c) 792 - Math_max ys,
   Math_max xs - Math_min xs,
   Math_max ys - Math_min ys).

(** The text item of an element when the callback returns. *)
Definition item_of (element : UnstructuredElement) : TextItem :=
  let coordinates :=
    coordinates match UnstructuredElement.metadata element with
                | Some m => m
                | None => empty_metadata
                end in
  let '(x, y, width, height) :=
    match coordinates with
    | Some c => if has_points coordinates then box_of c
                else (0, 0, 100, 12)
    | None => (0, 0, 100, 12)
    end in
  TextItem.mk (UnstructuredElement.text element) x y width height
              (lit "UnknownFont") true.

Definition items_of (elements : list UnstructuredElement) : TextItems :=
  map item_of (filter has_text elements).

(** The number of points of an element: the number of arguments of each
    spread call the callback makes for it. *)
Definition points_count (element : UnstructuredElement) : nat :=
  match UnstructuredElement.metadata element with
  | Some md =>
      match coordinates md with
      | Some c => List.length (points c)
      | None => 0
      end
  | None => 0
  end.

(** The engine can spread the points of the element. *)
Definition fits (limit : positive) (element : UnstructuredElement) : bool :=
  (N.of_nat (points_count element) <=? N.pos limit)%N.

Lemma bounding_box_spec (limit : positive) (c : Coordinates) :
  bounding_box limit c
  = if (N.of_nat (List.length (points c)) <=? N.pos limit)%N
    then Ok (box_of c) else Throw RangeError_stack.
Proof.
  unfold bounding_box, spread, column, box_of.
  rewrite !length_map.
  destruct (N.of_nat (List.length (points c)) <=? N.pos limit)%N;
    reflexivity.
Qed.

Lemma toTextItem_spec (limit : positive) (element : UnstructuredElement) :
  toTextItem limit element
  = if fits limit element then Ok (item_of element)
    else Throw RangeError_stack.
Proof.
  unfold toTextItem, item_of, fits, points_count.
  destruct (UnstructuredElement.metadata element) as [md|];
    cbn [coordinates empty_metadata]; [|reflexivity].
  destruct (coordinates md) as [c|]; [|reflexivity].
  unfold has_points. rewrite bounding_box_spec.
  destruct (0 <? List.length (points c))%nat eqn:E.
  - destruct (N.of_nat (List.length (points c)) <=? N.pos limit)%N;
      [|reflexivity].
    cbn [Result_bind]. destruct (box_of c) as [[[x y] w] h]. reflexivity.
  - apply Nat.ltb_ge in E.
    replace (List.length (points c)) with 0%nat by lia. reflexivity.
Qed.

Lemma Array_map_spec (A B : Type) (callback : A -> Result B)
      (ok : A -> bool) (value : A -> B) (error : Thrown) (arr : list A) :
  (forall a, callback a = if ok a then Ok (value a) else Throw error) ->
  Array_map callback arr
  = if forallb ok arr then Ok (map value arr) else Throw error.
Proof.
  intros H. induction arr as [|a rest IH]; [reflexivity|].
  cbn [Array_map forallb map]. rewrite H, IH.
  destruct (ok a); [|reflexivity]. cbn [Result_bind andb].
  destruct (forallb ok rest); reflexivity.
Qed.

(** The converter returns the items of the kept elements when the engine
    can spread the points of each, and throws otherwise. *)
Lemma convert_spec (limit : positive) (elements : list UnstructuredElement) :
  convertUnstructuredToTextItems limit elements
  = if forallb (fits limit) (filter has_text elements)
    then Ok (items_of elements) else Throw RangeError_stack.
Proof.
  unfold convertUnstructuredToTextItems, items_of.
  apply Array_map_spec. apply toTextItem_spec.
Qed.

Lemma convert_Ok (limit : positive) (elements : list UnstructuredElement)
      (textItems : TextItems) :
  convertUnstructuredToTextItems limit elements = Ok textItems ->
  textItems = items_of elements
  /\ forallb (fits limit) (filter has_text elements) = true.
Proof.
  rewrite convert_spec.
  destruct (forallb _ _); [|discriminate].
  intros H. injection H as <-. auto.
Qed.


Lemma convert_Throw (limit : positive) (elements : list UnstructuredElement)
      (error : Thrown) :
  convertUnstructuredToTextItems limit elements = Throw error ->
  error = RangeError_stack.
Proof.
  rewrite convert_spec. destruct (forallb _ _); [discriminate|].
  intros H. now injection H.
Qed.

End Value.

(* ================================================================== *)
(** ** The converter, element by element *)

Lemma items_of_app (before after : list UnstructuredElement) :
  items_of (before ++ after)
  = items_of before
    ++ items_of after.
Proof.
  unfold items_of.
  now rewrite filter_app, map_app.
Qed.

Lemma items_of_cons (element : UnstructuredElement)
      (after : list UnstructuredElement) :
  items_of (element :: after)
  = if has_text element
    then item_of element :: items_of after
    else items_of after.
Proof.
  unfold items_of. cbn [filter].
  destruct (has_text element); reflexivity.
Qed.

Lemma item_of_text (element : UnstructuredElement) :
  TextItem.text (item_of element) = UnstructuredElement.text element.
Proof.
  unfold item_of.
  destruct (match coordinates _ with Some _ => _ | None => _ end)
    as [[[x y] w] h].
  reflexivity.
Qed.

Lemma item_of_flags (element : UnstructuredElement) :
  TextItem.hasEOL (item_of element) = true
  /\ TextItem.fontName (item_of element) = lit "UnknownFont".
Proof.
  unfold item_of.
  destruct (match coordinates _ with Some _ => _ | None => _ end)
    as [[[x y] w] h].
  split; reflexivity.
Qed.

(* ================================================================== *)
(** ** Positions *)

Section Positions.

Local Open Scope float_scope.

Lemma or_number_spec (a b : float) :
  or_number a b = if is_zero a || is_nan a then b else a.
Proof.
  unfold or_number, truthy_number.
  destruct (is_nan a), (is_zero a); reflexivity.
Qed.

Lemma item_of_with_points (element : UnstructuredElement)
      (md : Metadata) (c : Coordinates) :
  UnstructuredElement.metadata element = Some md ->
  coordinates md = Some c ->
  points c <> [] ->
  item_of element
  = let '(x, y, width, height) := box_of c in
    TextItem.mk (UnstructuredElement.text element) x y width height
                (lit "UnknownFont") true.
Proof.
  intros Hmd Hc Hp. unfold item_of. rewrite Hmd, Hc.
  unfold has_points. destruct (points c); [congruence|reflexivity].
Qed.

Lemma item_of_without_points (element : UnstructuredElement) :
  has_points
    (coordinates match UnstructuredElement.metadata element with
                 | Some m => m
                 | None => empty_metadata
                 end) = false ->
  item_of element
  = TextItem.mk (UnstructuredElement.text element) 0 0 100 12
                (lit "UnknownFont") true.
Proof.
  intros H. unfold item_of.
  destruct (coordinates _) as [c|]; [|reflexivity].
  rewrite H. reflexivity.
Qed.

(** A point that carries a finite x and a finite y. *)
Definition finite_point (p : list float) : bool :=
  match p with
  | x :: y :: _ => is_finite x && is_finite y
  | _ => false
  end.

(** Every point of the element, if it has any, is a [finite_point]. *)
Definition finite_points (element : UnstructuredElement) : bool :=
  match UnstructuredElement.metadata element with
  | Some md =>
      match coordinates md with
      | Some c => forallb finite_point (points c)
      | None => true
      end
  | None => true
  end.

Lemma finite_point_columns (pts : list (list float)) :
  forallb finite_point pts = true ->
  Extrema.finite_args (column 0 pts) = true
  /\ Extrema.finite_args (column 1 pts) = true.
Proof.
  unfold Extrema.finite_args, column.
  induction pts as [|p pts IH]; cbn [forallb map]; [auto|].
  intros H. apply andb_true_iff in H. destruct H as [Hp Hr].
  destruct (IH Hr) as [IH0 IH1]. rewrite IH0, IH1.
  destruct p as [|x [|y p]]; try discriminate.
  cbn [finite_point] in Hp. apply andb_true_iff in Hp. destruct Hp as [Hx Hy].
  cbn [nth_error]. rewrite Hx, Hy. auto.
Qed.

Lemma item_of_extent_nonneg (element : UnstructuredElement) :
  finite_points element = true ->
  (0 <=? TextItem.width (item_of element)) = true
  /\ (0 <=? TextItem.height (item_of element)) = true.
Proof.
  unfold finite_points. intros H.
  destruct (UnstructuredElement.metadata element) as [md|] eqn:Hmd.
  - destruct (coordinates md) as [c|] eqn:Hc.
    + destruct (points c) as [|p pts] eqn:Hp.
      * rewrite item_of_without_points; [split; reflexivity|].
        rewrite Hmd, Hc. unfold has_points. now rewrite Hp.
      * assert (Hne : points c <> []) by congruence.
        rewrite (item_of_with_points _ Hmd Hc Hne).
        unfold box_of. cbn [TextItem.width TextItem.height].
        rewrite <- Hp in H.
        destruct (finite_point_columns _ H) as [H0 H1].
        assert (N0 : column 0 (points c) <> [])
          by (rewrite Hp; discriminate).
        assert (N1 : column 1 (points c) <> [])
          by (rewrite Hp; discriminate).
        split; apply Extrema.extent_nonneg; assumption.
    + rewrite item_of_without_points; [split; reflexivity|].
      now rewrite Hmd, Hc.
  - rewrite item_of_without_points; [split; reflexivity|].
    now rewrite Hmd.
Qed.

End Positions.

(* ================================================================== *)
(** ** Sample inputs *)

Module Sample.

Local Open Scope float_scope.

(** A title line with the four corners of its box, on a letter page. *)
Definition title_box : Coordinates :=
  mkCoordinates [[72; 96]; [72; 120]; [240; 120]; [240; 96]]
                (lit "PixelSpace") 612 792.

Definition title : UnstructuredElement :=
  UnstructuredElement.mk
    (lit "Title") (lit "John Doe")
    (Some (mkMetadata (Some (lit "resume.pdf")) (Some 1) (Some title_box))).

(** An element with whitespace-only text. *)
Definition blank : UnstructuredElement :=
  UnstructuredElement.mk (lit "UncategorizedText") (lit "  ") None.

(** An element with no metadata. *)
Definition email : UnstructuredElement :=
  UnstructuredElement.mk (lit "NarrativeText") (lit "john@x.com") None.

(** An element of type [number[][]] whose second point has no y. *)
Definition ragged : UnstructuredElement :=
  UnstructuredElement.mk
    (lit "Title") (lit "John Doe")
    (Some (mkMetadata None None
             (Some (mkCoordinates [[72; 96]; [240]]
                                  (lit "PixelSpace") 612 792)))).

(** An element one of whose x-values overflowed to [Infinity] when the
    response was parsed. *)
Definition overflowed : UnstructuredElement :=
  UnstructuredElement.mk
    (lit "Title") (lit "John Doe")
    (Some (mkMetadata None None
             (Some (mkCoordinates [[infinity; 96]]
                                  (lit "PixelSpace") 612 792)))).

Definition elements : list UnstructuredElement := [title; blank; email].

(** An element whose layout_height is [NaN]. *)
Definition no_height : UnstructuredElement :=
  UnstructuredElement.mk
    (lit "Title") (lit "John Doe")
    (Some (mkMetadata None None
             (Some (mkCoordinates [[72; 96]]
                                  (lit "PixelSpace") 612 nan)))).

(** An element with [n] points. *)
Definition polygon (n : nat) : UnstructuredElement :=
  UnstructuredElement.mk
    (lit "Image") (lit "logo")
    (Some (mkMetadata None None
             (Some (mkCoordinates (repeat [0; 0] n)
                                  (lit "PixelSpace") 612 792)))).

(** A bound on spread arguments of the order of V8's with its default
    stack. *)
Definition limit : positive := 125000.

End Sample.

(** The converter on the sample elements: the blank one is dropped, the
    title gets its box with a bottom-left origin, the one without metadata
    gets the defaults. *)
Example convert_sample :
  convertUnstructuredToTextItems Sample.limit Sample.elements
  = Ok [TextItem.mk (lit "John Doe") 72%float 672%float 168%float 24%float
                    (lit "UnknownFont") true;
        TextItem.mk (lit "john@x.com") 0%float 0%float 100%float 12%float
                    (lit "UnknownFont") true].
Proof. vm_compute. reflexivity. Qed.

Example trim_sample : trim (lit "  John Doe ") = lit "John Doe".
Proof. reflexivity. Qed.

Example Math_min_signed_zeros :
  Math_min [Some 0%float; Some (-0)%float] = (-0)%float
  /\ Math_max [Some (-0)%float; Some 0%float] = 0%float.
Proof. split; vm_compute; reflexivity. Qed.

Example Math_min_missing_coordinate :
  Math_min [Some 96%float; None] = nan.
Proof. vm_compute. reflexivity. Qed.

(** [layout_height || 792]: zero of either sign and [NaN] give 792. *)
Example pageHeight_samples :
  or_number 612%float 792%float = 612%float
  /\ or_number 0%float 792%float = 792%float
  /\ or_number (-0)%float 792%float = 792%float
  /\ or_number nan 792%float = 792%float.
Proof. repeat split; vm_compute; reflexivity. Qed.

Example filename_of_url_sample :
  filename_of_url (lit "https://example.org/files/resume.pdf")
  = lit "resume.pdf"
  /\ filename_of_url (lit "https://example.org/files/") = lit "document".
Proof. split; vm_compute; reflexivity. Qed.

(** A points list one longer than the engine can spread: the first
    [Math.min(...xs)] throws and the converter returns nothing, whatever
    the other elements are. *)
Lemma long_points_throw (limit : positive)
      (before after : list UnstructuredElement) :
  convertUnstructuredToTextItems
    limit (before ++ Sample.polygon (S (Pos.to_nat limit)) :: after)
  = Throw RangeError_stack.
Proof.
  rewrite convert_spec.
  replace (forallb (fits limit) (filter has_text _)) with false;
    [reflexivity|].
  symmetry. apply not_true_is_false. intros H.
  rewrite forallb_forall in H.
  specialize (H (Sample.polygon (S (Pos.to_nat limit)))).
  assert (F : fits limit (Sample.polygon (S (Pos.to_nat limit))) = false).
  { unfold fits, points_count. cbn [Sample.polygon UnstructuredElement.metadata
                                     coordinates points].
    rewrite repeat_length. apply N.leb_gt. lia. }
  rewrite F in H. discriminate H.
  apply filter_In. split; [apply in_elt|reflexivity].
Qed.


(* ================================================================== *)
(** ** The converter: texts, flags, positions, extents *)

Section ConverterClaims.

Local Open Scope float_scope.

Lemma filter_has_text (elements : list UnstructuredElement) :
  filter has_text elements
  = filter (fun element =>
              negb (is_blank (UnstructuredElement.text element)))
           elements.
Proof. apply filter_ext. exact has_text_spec. Qed.

Lemma Forall2_map_r (A B : Type) (R : A -> B -> Prop) (f : A -> B)
      (l : list A) :
  (forall a, In a l -> R a (f a)) -> Forall2 R l (map f l).
Proof.
  induction l as [|a l IH]; cbn [map]; intros H; constructor.
  - apply H. now left.
  - apply IH. intros b Hb. apply H. now right.
Qed.


(** The engine can spread the points of every element that is kept. *)
Definition all_fit (limit : positive)
           (elements : list UnstructuredElement) : Prop :=
  Forall (fun element =>
            is_blank (UnstructuredElement.text element) = false ->
            (N.of_nat (points_count element) <= N.pos limit)%N)
         elements.

Lemma all_fit_spec (limit : positive)
      (elements : list UnstructuredElement) :
  all_fit limit elements <->
  forallb (fits limit) (filter has_text elements) = true.
Proof.
  unfold all_fit. rewrite forallb_forall, Forall_forall. split.
  - intros H element Hin. apply filter_In in Hin. destruct Hin as [Hin Ht].
    rewrite has_text_spec in Ht. apply negb_true_iff in Ht.
    apply N.leb_le. auto.
  - intros H element Hin Hb. apply N.leb_le. apply (H element).
    apply filter_In. split; [exact Hin|]. now rewrite has_text_spec, Hb.
Qed.





(** C7. Every text item the converter produces has [hasEOL = true] and
    [fontName = "UnknownFont"]. *)
Theorem convert_sets_EOL_and_font
        (limit : positive) (elements : list UnstructuredElement)
        (textItems : TextItems) :
  convertUnstructuredToTextItems limit elements = Ok textItems ->
  Forall (fun textItem =>
            TextItem.hasEOL textItem = true
            /\ TextItem.fontName textItem = lit "UnknownFont")
         textItems.
Proof.
  intros H. apply convert_Ok in H. destruct H as [-> _].
  unfold items_of. apply Forall_forall. intros textItem H.
  apply in_map_iff in H. destruct H as (element & <- & _).
  apply item_of_flags.
Qed.

Lemma convert_sets_EOL_and_font_witness :
  Forall (fun textItem =>
            TextItem.hasEOL textItem = true
            /\ TextItem.fontName textItem = lit "UnknownFont")
         (items_of Sample.elements).
Proof.
  apply (@convert_sets_EOL_and_font Sample.limit Sample.elements).
  vm_compute. reflexivity.
Defined.

End ConverterClaims.

(* ================================================================== *)
(** ** Positions and extents *)

Section PositionClaims.

Local Open Scope float_scope.

(** The converter on a concatenation: the first list, then the second. *)
Lemma convert_app (limit : positive)
      (before after : list UnstructuredElement) :
  convertUnstructuredToTextItems limit (before ++ after)
  = Result_bind (convertUnstructuredToTextItems limit before)
      (fun itemsBefore =>
         Result_bind (convertUnstructuredToTextItems limit after)
           (fun itemsAfter => Ok (itemsBefore ++ itemsAfter))).
Proof.
  rewrite !convert_spec, items_of_app, filter_app, forallb_app.
  destruct (forallb _ (filter _ before)); [|reflexivity].
  destruct (forallb _ (filter _ after)); reflexivity.
Qed.

(** The converter on one element with non-blank text. *)
Lemma convert_one (limit : positive) (element : UnstructuredElement) :
  is_blank (UnstructuredElement.text element) = false ->
  (N.of_nat (points_count element) <= N.pos limit)%N ->
  convertUnstructuredToTextItems limit [element] = Ok [item_of element].
Proof.
  intros Hb Hl. rewrite convert_spec. unfold items_of. cbn [filter].
  rewrite has_text_spec, Hb. cbn [negb forallb map].
  unfold fits. apply N.leb_le in Hl. now rewrite Hl.
Qed.

Lemma convert_around (limit : positive)
      (before after : list UnstructuredElement)
      (element : UnstructuredElement) (itemsBefore itemsAfter : TextItems) :
  is_blank (UnstructuredElement.text element) = false ->
  (N.of_nat (points_count element) <= N.pos limit)%N ->
  convertUnstructuredToTextItems limit before = Ok itemsBefore ->
  convertUnstructuredToTextItems limit after = Ok itemsAfter ->
  convertUnstructuredToTextItems limit (before ++ element :: after)
  = Ok (itemsBefore ++ item_of element :: itemsAfter).
Proof.
  intros Hb Hl HB HA.
  change (element :: after) with ([element] ++ after).
  rewrite convert_app, HB. cbn [Result_bind].
  rewrite convert_app, (@convert_one limit element Hb Hl), HA. reflexivity.
Qed.

(** A point that carries an x and a y that are numbers. *)
Definition numeric_point (p : list float) : bool :=
  match p with
  | x :: y :: _ => negb (is_nan x) && negb (is_nan y)
  | _ => false
  end.

Lemma numeric_point_columns (pts : list (list float)) :
  forallb numeric_point pts = true ->
  Least.numbers (column 0 pts) = true
  /\ Least.numbers (column 1 pts) = true.
Proof.
  unfold Least.numbers, column.
  induction pts as [|p pts IH]; cbn [forallb map]; [auto|].
  intros H. apply andb_true_iff in H. destruct H as [Hp Hr].
  destruct (IH Hr) as [IH0 IH1]. rewrite IH0, IH1.
  destruct p as [|x [|y p]]; try discriminate.
  cbn [numeric_point] in Hp. apply andb_true_iff in Hp. destruct Hp as [Hx Hy].
  cbn [nth_error]. rewrite Hx, Hy. auto.
Qed.

(** C5, as stated, fails: for a points list longer than the engine can
    spread no text item is produced at all. *)
Lemma position_from_points_counterexample :
  ~ (forall (limit : positive) (element : UnstructuredElement)
            (md : Metadata) (c : Coordinates),
        is_blank (UnstructuredElement.text element) = false ->
        UnstructuredElement.metadata element = Some md ->
        coordinates md = Some c ->
        points c <> [] ->
        exists textItem,
          convertUnstructuredToTextItems limit [element] = Ok [textItem]
          /\ TextItem.x textItem = Math_min (column 0 (points c))
          /\ TextItem.width textItem
             = Math_max (column 0 (points c))
               - Math_min (column 0 (points c))
          /\ TextItem.height textItem
             = Math_max (column 1 (points c))
               - Math_min (column 1 (points c))
          /\ TextItem.y textItem
             = (if is_zero (layout_height c) then 792 else layout_height c)
               - Math_max (column 1 (points c))).
Proof.
  intros H.
  destruct (H Sample.limit
              (Sample.polygon (S (Pos.to_nat Sample.limit)))
              (mkMetadata None None
                 (Some (mkCoordinates
                          (repeat [0; 0] (S (Pos.to_nat Sample.limit)))
                          (lit "PixelSpace") 612 792)))
              (mkCoordinates (repeat [0; 0] (S (Pos.to_nat Sample.limit)))
                             (lit "PixelSpace") 612 792)
              eq_refl eq_refl eq_refl)
    as (textItem & E & _).
  - cbn [points repeat]. discriminate.
  - pose proof (long_points_throw Sample.limit [] []) as T. cbn [app] in T.
    rewrite T in E. discriminate E.
Qed.

(** Two more inputs on which C5 fails as stated: with a layout_height that
    is [NaN], which is not zero, the page height is 792; with a point that
    has no y there is no least or greatest y and the height is [NaN]. *)
Lemma position_from_points_other_failures :
  (exists textItem,
      convertUnstructuredToTextItems Sample.limit [Sample.no_height]
      = Ok [textItem]
      /\ TextItem.y textItem = 696
      /\ (nan - 96 = nan))
  /\ (exists textItem,
         convertUnstructuredToTextItems Sample.limit [Sample.ragged]
         = Ok [textItem]
         /\ TextItem.height textItem = nan).
Proof.
  split; eexists; repeat split; vm_compute; reflexivity.
Qed.

(** C5, amended. For an element with non-blank text whose points, at least
    one and no more than the engine can spread, all carry an x and a y that
    are numbers, the converter (when it returns for the elements before and
    after) produces in its place a text item whose [x] is the least
    x-value, whose [width] is the greatest x-value minus the least, whose
    [height] is the greatest y-value minus the least, and whose [y] is
    [pageHeight] minus the greatest y-value, where [pageHeight] is
    [layout_height] when that is neither zero nor [NaN] and 792
    otherwise. *)
Theorem position_from_points
        (limit : positive)
        (before after : list UnstructuredElement)
        (element : UnstructuredElement) (md : Metadata) (c : Coordinates)
        (itemsBefore itemsAfter : TextItems) :
  is_blank (UnstructuredElement.text element) = false ->
  UnstructuredElement.metadata element = Some md ->
  coordinates md = Some c ->
  points c <> [] ->
  (N.of_nat (List.length (points c)) <= N.pos limit)%N ->
  forallb numeric_point (points c) = true ->
  convertUnstructuredToTextItems limit before = Ok itemsBefore ->
  convertUnstructuredToTextItems limit after = Ok itemsAfter ->
  let xs := column 0 (points c) in
  let ys := column 1 (points c) in
  let pageHeight :=
    if is_zero (layout_height c) || is_nan (layout_height c) then 792
    else layout_height c in
  exists textItem minX maxX minY maxY,
    convertUnstructuredToTextItems limit (before ++ element :: after)
    = Ok (itemsBefore ++ textItem :: itemsAfter)
    /\ TextItem.text textItem = UnstructuredElement.text element
    /\ Least.least minX xs /\ Least.greatest maxX xs
    /\ Least.least minY ys /\ Least.greatest maxY ys
    /\ TextItem.x textItem = minX
    /\ TextItem.width textItem = maxX - minX
    /\ TextItem.height textItem = maxY - minY
    /\ TextItem.y textItem = pageHeight - maxY.
Proof.
  intros Hb Hmd Hc Hp Hl Hn HB HA xs ys pageHeight.
  assert (Hcount : (N.of_nat (points_count element) <= N.pos limit)%N)
    by (unfold points_count; now rewrite Hmd, Hc).
  destruct (@numeric_point_columns _ Hn) as [N0 N1].
  assert (E0 : xs <> []) by (unfold xs, column; destruct (points c);
                             [congruence|discriminate]).
  assert (E1 : ys <> []) by (unfold ys, column; destruct (points c);
                             [congruence|discriminate]).
  exists (item_of element), (Math_min xs), (Math_max xs),
         (Math_min ys), (Math_max ys).
  split; [now apply convert_around|].
  split; [apply item_of_text|].
  split; [now apply Least.Math_min_least|].
  split; [now apply Least.Math_max_greatest|].
  split; [now apply Least.Math_min_least|].
  split; [now apply Least.Math_max_greatest|].
  rewrite (@item_of_with_points element md c Hmd Hc Hp).
  unfold box_of. cbn [TextItem.x TextItem.y TextItem.width TextItem.height].
  rewrite or_number_spec. repeat split; reflexivity.
Qed.

Lemma position_from_points_witness :
  exists textItem minX maxX minY maxY,
    convertUnstructuredToTextItems
      Sample.limit ([Sample.blank] ++ Sample.title :: [Sample.email])
    = Ok ([] ++ textItem
             :: [TextItem.mk (lit "john@x.com") 0 0 100 12
                             (lit "UnknownFont") true])
    /\ TextItem.text textItem = lit "John Doe"
    /\ Least.least minX (column 0 (points Sample.title_box))
    /\ Least.greatest maxX (column 0 (points Sample.title_box))
    /\ Least.least minY (column 1 (points Sample.title_box))
    /\ Least.greatest maxY (column 1 (points Sample.title_box))
    /\ TextItem.x textItem = minX
    /\ TextItem.width textItem = maxX - minX
    /\ TextItem.height textItem = maxY - minY
    /\ TextItem.y textItem = 792 - maxY.
Proof.
  apply (@position_from_points
           Sample.limit [Sample.blank] [Sample.email] Sample.title
           (mkMetadata (Some (lit "resume.pdf")) (Some 1)
                       (Some Sample.title_box))
           Sample.title_box);
    try (vm_compute; reflexivity).
  - cbn [Sample.title_box points]. discriminate.
  - apply N.leb_le. vm_compute. reflexivity.
Defined.

End PositionClaims.

(* ================================================================== *)
(** ** Extents *)

Section ExtentClaims.

Local Open Scope float_scope.

(** C6, as stated, fails: a point with a missing coordinate makes the
    extent [NaN], and [NaN >= 0] is false. *)
Lemma extent_nonneg_counterexample :
  ~ (forall (limit : positive) (elements : list UnstructuredElement)
            (textItems : TextItems),
        convertUnstructuredToTextItems limit elements = Ok textItems ->
        Forall (fun textItem =>
                  (0 <=? TextItem.width textItem) = true
                  /\ (0 <=? TextItem.height textItem) = true)
               textItems).
Proof.
  intros H.
  specialize (H Sample.limit [Sample.ragged] (items_of [Sample.ragged])).
  assert (E : convertUnstructuredToTextItems Sample.limit [Sample.ragged]
              = Ok (items_of [Sample.ragged]))
    by (vm_compute; reflexivity).
  specialize (H E). rewrite Forall_forall in H.
  destruct (H (item_of Sample.ragged) (or_introl eq_refl)) as [_ Hh].
  vm_compute in Hh. discriminate Hh.
Qed.

(** An infinite coordinate does the same: [Infinity - Infinity] is [NaN]. *)
Lemma extent_of_overflowed_point :
  exists textItem,
    convertUnstructuredToTextItems Sample.limit [Sample.overflowed]
    = Ok [textItem]
    /\ (0 <=? TextItem.width textItem) = false.
Proof. eexists. split; vm_compute; reflexivity. Qed.

(** C6, amended. Each text item the converter produces satisfies
    [width >= 0] and [height >= 0] when its own element has no points (the
    defaults 100 and 12) or has points that all carry a finite x and a
    finite y (a maximum minus a minimum of the same finite values),
    whatever the other elements hold. The items pair up, in order, with the
    elements whose text is not blank. *)
Theorem extent_nonneg_of_finite_points
        (limit : positive) (elements : list UnstructuredElement)
        (textItems : TextItems) :
  convertUnstructuredToTextItems limit elements = Ok textItems ->
  Forall2 (fun element textItem =>
             finite_points element = true ->
             (0 <=? TextItem.width textItem) = true
             /\ (0 <=? TextItem.height textItem) = true)
          (filter (fun element =>
                     negb (is_blank (UnstructuredElement.text element)))
                  elements)
          textItems.
Proof.
  intros H. apply convert_Ok in H. destruct H as [-> _].
  unfold items_of. rewrite <- filter_has_text.
  apply Forall2_map_r. intros element _.
  apply item_of_extent_nonneg.
Qed.

Lemma extent_nonneg_of_finite_points_witness :
  Forall2 (fun element textItem =>
             finite_points element = true ->
             (0 <=? TextItem.width textItem) = true
             /\ (0 <=? TextItem.height textItem) = true)
          [Sample.ragged; Sample.title]
          (items_of [Sample.ragged; Sample.blank; Sample.title]).
Proof.
  apply (@extent_nonneg_of_finite_points
           Sample.limit [Sample.ragged; Sample.blank; Sample.title]).
  vm_compute. reflexivity.
Defined.

(** In the witness the first element is not finite and the second is: the
    title's item has both extents [>= 0] next to a [NaN] height. *)
Lemma extent_nonneg_next_to_NaN :
  exists ragged title,
    convertUnstructuredToTextItems
      Sample.limit [Sample.ragged; Sample.blank; Sample.title]
    = Ok [ragged; title]
    /\ TextItem.height ragged = nan
    /\ (0 <=? TextItem.width title) = true
    /\ (0 <=? TextItem.height title) = true.
Proof. do 2 eexists. repeat split; vm_compute; reflexivity. Qed.

End ExtentClaims.

(* ================================================================== *)
(** ** Purity of the converter *)

Module StoreFacts.





End StoreFacts.



(* ================================================================== *)
(** ** Sample worlds *)

Module SampleWorld.

Definition file : File :=
  mkFile [mkBlob [37; 80; 68; 70]%N (lit "application/pdf")]
         (lit "resume.pdf") (lit "application/pdf").

Definition fileUrl : JsString := lit "https://example.org/files/resume.pdf".

(** What a failed network request rejects with. *)
Definition fetch_failed : Thrown :=
  ErrorObject (lit "TypeError") (lit "fetch failed").

(** The key is set and every request fails. *)
Definition offline : World :=
  mkWorld (Some (lit "key")) None (fun _ _ => Throw fetch_failed)
          125000.

(** The key is set and the service answers 200 with the given elements;
    a plain GET returns the file. *)
Definition answering (elements : list UnstructuredElement) : World :=
  mkWorld (Some (lit "key")) None
          (fun _ _ =>
             Ok (mkResponse true 200 (lit "OK") (Ok [])
                            (Ok elements)
                            (Ok (mkBlob [37; 80; 68; 70]%N
                                        (lit "application/pdf")))))
          125000.

(** The same with an engine that cannot spread more than two arguments. *)
Definition cramped (elements : list UnstructuredElement) : World :=
  mkWorld (Some (lit "key")) None (fetch_outcome (answering elements)) 2.

(** Downstream stages to run the entry points with: the texts of the items,
    one section holding every line, the number of sections. *)
Definition Lines := list JsString.
Definition Sections := list (list JsString).
Definition Resume := nat.
Definition groupTextItemsIntoLines (textItems : TextItems) : Lines :=
  map TextItem.text textItems.
Definition groupLinesIntoSections (lines : Lines) : Sections := [lines].
Definition extractResumeFromSections (sections : Sections) : Resume :=
  List.length sections.

End SampleWorld.

(* ================================================================== *)
(** ** The reader and the pipeline *)

(** What a catch clause of the reader throws for a caught [error]. *)
Definition rethrown (prefix : JsString) (error : Thrown) : Thrown :=
  match error with
  | ErrorObject _ message => new_Error (prefix ++ message)
  | NonError v => NonError v
  end.

Arguments CallFetch {Lines Sections} url init.
Arguments CallGroupTextItemsIntoLines {Lines Sections} textItems.
Arguments CallGroupLinesIntoSections {Lines Sections} lines.
Arguments CallExtractResumeFromSections {Lines Sections} sections.

(** The calls of a log that go to a downstream stage. *)
Definition is_stage_call (Lines Sections : Type)
           (ev : Event Lines Sections) : bool :=
  match ev with
  | CallFetch _ _ => false
  | _ => true
  end.

Definition stage_calls (Lines Sections : Type)
           (log : list (Event Lines Sections)) : list (Event Lines Sections) :=
  filter (@is_stage_call Lines Sections) log.

Lemma rethrow_spec (Lines Sections A : Type) (prefix : JsString)
      (error : Thrown) :
  @rethrow Lines Sections A prefix error = ([], Throw (rethrown prefix error)).
Proof. destruct error; reflexivity. Qed.

(** Runs the monad's operations on outcomes that are known. *)
Ltac run_m :=
  repeat (cbn [bind try_catch await ret throw]; rewrite ?rethrow_spec).

Section PipelineFacts.

Variables Lines Sections Resume : Type.
Variable groupTextItemsIntoLines : TextItems -> Lines.
Variable groupLinesIntoSections : Lines -> Sections.
Variable extractResumeFromSections : Sections -> Resume.

Lemma isEmptySpace_items (elements : list UnstructuredElement) :
  Forall (fun textItem => isEmptySpace textItem = false)
         (items_of elements).
Proof.
  unfold items_of.
  apply Forall_forall. intros textItem H.
  apply in_map_iff in H. destruct H as (element & <- & _).
  unfold isEmptySpace.
  now rewrite (proj1 (item_of_flags element)).
Qed.

Lemma filter_all (A : Type) (keep : A -> bool) (l : list A) :
  Forall (fun a => keep a = true) l -> filter keep l = l.
Proof.
  induction 1 as [|a l Ha _ IH]; cbn [filter]; [reflexivity|].
  now rewrite Ha, IH.
Qed.

Lemma empty_space_filter (elements : list UnstructuredElement) :
  filter (fun textItem => negb (isEmptySpace textItem)) (items_of elements)
  = items_of elements.
Proof.
  apply filter_all.
  eapply Forall_impl; [|apply isEmptySpace_items].
  cbv beta. intros textItem H. now rewrite H.
Qed.

(** readDocument, by the outcome of parseDocumentWithUnstructured and of
    the converter. *)
Lemma readDocument_spec (world : World) (file : File) :
  readDocument Lines Sections world file
  = let m := parseDocumentWithUnstructured Lines Sections world file in
    match outcome m with
    | Ok elements =>
        match convertUnstructuredToTextItems (spread_limit world)
                                             elements with
        | Ok textItems => (calls m, Ok textItems)
        | Throw error =>
            (calls m,
             Throw (rethrown (lit "Failed to read document: ") error))
        end
    | Throw error =>
        (calls m, Throw (rethrown (lit "Failed to read document: ") error))
    end.
Proof.
  unfold readDocument, eval. cbv zeta.
  destruct (parseDocumentWithUnstructured Lines Sections world file)
    as [log [elements|error]]; cbn [bind try_catch outcome calls fst snd ret].
  - destruct (convertUnstructuredToTextItems _ elements)
      as [textItems|error] eqn:E; cbn [bind try_catch ret].
    + apply convert_Ok in E. destruct E as [-> _].
      rewrite empty_space_filter, !app_nil_r. reflexivity.
    + rewrite rethrow_spec, !app_nil_r. reflexivity.
  - rewrite rethrow_spec, app_nil_r. reflexivity.
Qed.

(** readPdf, by the outcome of its own fetch. *)
Lemma readPdf_fetch_failure (world : World) (fileUrl : JsString)
      (error : Thrown) :
  fetch_outcome world fileUrl None = Throw error ->
  readPdf Lines Sections world fileUrl
  = ([CallFetch fileUrl None],
     Throw (rethrown (lit "Failed to read PDF from URL: ") error)).
Proof.
  intros H. unfold readPdf, fetch. rewrite H.
  cbn [bind try_catch]. rewrite rethrow_spec. reflexivity.
Qed.

(** When its own fetch and [response.blob()] succeed, readPdf settles as
    readDocument does on the file it built: nothing is added to an error of
    readDocument. *)
Lemma readPdf_delivers_readDocument (world : World) (fileUrl : JsString)
      (response : Response) (b : Blob) :
  fetch_outcome world fileUrl None = Ok response ->
  blob response = Ok b ->
  outcome (readPdf Lines Sections world fileUrl)
  = outcome (readDocument Lines Sections world
               (mkFile [b] (filename_of_url fileUrl) (blob_type b))).
Proof.
  intros Hf Hb. unfold readPdf, fetch. rewrite Hf.
  cbn [bind]. rewrite Hb. run_m.
  destruct (readDocument _ _ _ _) as [log r]. reflexivity.
Qed.

(** The reader only calls [fetch]. *)
Lemma parseDocument_no_stage_call (world : World) (file : File) :
  stage_calls
    (calls (parseDocumentWithUnstructured Lines Sections world file)) = [].
Proof.
  unfold parseDocumentWithUnstructured, fetch.
  destruct (negb (truthy_string _)); [reflexivity|].
  destruct (fetch_outcome world _ _) as [response|error]; cbn [bind].
  - destruct (ok response); cbn [negb].
    + destruct (json response); run_m; reflexivity.
    + destruct (text response); run_m; reflexivity.
  - run_m. reflexivity.
Qed.

Lemma readDocument_calls (world : World) (file : File) :
  calls (readDocument Lines Sections world file)
  = calls (parseDocumentWithUnstructured Lines Sections world file).
Proof.
  rewrite readDocument_spec. cbv zeta.
  destruct (outcome _) as [elements|error]; [|reflexivity].
  destruct (convertUnstructuredToTextItems _ elements); reflexivity.
Qed.

Lemma readDocument_no_stage_call (world : World) (file : File) :
  stage_calls (calls (readDocument Lines Sections world file)) = [].
Proof. rewrite readDocument_calls. apply parseDocument_no_stage_call. Qed.

Lemma stage_calls_app (l1 l2 : list (Event Lines Sections)) :
  stage_calls (l1 ++ l2) = stage_calls l1 ++ stage_calls l2.
Proof. apply filter_app. Qed.

Lemma readPdf_no_stage_call (world : World) (fileUrl : JsString) :
  stage_calls (calls (readPdf Lines Sections world fileUrl)) = [].
Proof.
  unfold readPdf, fetch.
  destruct (fetch_outcome world fileUrl None) as [response|error];
    cbn [bind try_catch].
  - destruct (blob response) as [b|error]; cbn [await bind ret try_catch].
    + pose proof (readDocument_no_stage_call world
                    (mkFile [b] (filename_of_url fileUrl) (blob_type b))) as H.
      destruct (readDocument _ _ _ _) as [log r]. cbn [calls fst] in *.
      cbn [app]. unfold stage_calls in *. cbn [filter is_stage_call].
      exact H.
    + rewrite rethrow_spec. reflexivity.
  - rewrite rethrow_spec. reflexivity.
Qed.

(** The four steps of an entry point after its reader [read]. *)
Lemma pipeline_spec (read : M Lines Sections TextItems) :
  bind read (fun textItems =>
    bind (call CallGroupTextItemsIntoLines groupTextItemsIntoLines textItems)
      (fun lines =>
    bind (call CallGroupLinesIntoSections groupLinesIntoSections lines)
      (fun sections =>
    bind (call CallExtractResumeFromSections extractResumeFromSections
               sections)
      (fun resume => ret Lines Sections resume))))
  = match outcome read with
    | Ok textItems =>
        let lines := groupTextItemsIntoLines textItems in
        let sections := groupLinesIntoSections lines in
        (calls read
           ++ [CallGroupTextItemsIntoLines textItems;
               CallGroupLinesIntoSections lines;
               CallExtractResumeFromSections sections],
         Ok (extractResumeFromSections sections))
    | Throw error => (calls read, Throw error)
    end.
Proof. destruct read as [log [textItems|error]]; reflexivity. Qed.

(** C2. Each entry point is its reader followed by the three stages, in
    order, each called once on the result of the step before: when the
    reader returns [textItems] the calls after the reader's own are exactly
    groupTextItemsIntoLines(textItems), groupLinesIntoSections of its result
    and extractResumeFromSections of that, whose result is returned; when
    the reader throws, so does the composition. *)
Theorem pipeline_is_composition
        (world : World) (file : File) (fileUrl : JsString) :
  parseResumeFromFile groupTextItemsIntoLines groupLinesIntoSections
                      extractResumeFromSections world file
  = (let read := readDocument Lines Sections world file in
     match outcome read with
     | Ok textItems =>
         let lines := groupTextItemsIntoLines textItems in
         let sections := groupLinesIntoSections lines in
         (calls read
            ++ [CallGroupTextItemsIntoLines textItems;
                CallGroupLinesIntoSections lines;
                CallExtractResumeFromSections sections],
          Ok (extractResumeFromSections sections))
     | Throw error => (calls read, Throw error)
     end)
  /\ parseResumeFromPdf groupTextItemsIntoLines groupLinesIntoSections
                        extractResumeFromSections world fileUrl
     = (let read := readPdf Lines Sections world fileUrl in
        match outcome read with
        | Ok textItems =>
            let lines := groupTextItemsIntoLines textItems in
            let sections := groupLinesIntoSections lines in
            (calls read
               ++ [CallGroupTextItemsIntoLines textItems;
                   CallGroupLinesIntoSections lines;
                   CallExtractResumeFromSections sections],
             Ok (extractResumeFromSections sections))
        | Throw error => (calls read, Throw error)
        end).
Proof.
  split.
  - unfold parseResumeFromFile. apply pipeline_spec.
  - unfold parseResumeFromPdf. apply pipeline_spec.
Qed.

(** C8. In each entry point, when the reading step fails the entry point
    fails with the reader's error and its log holds no call of
    groupTextItemsIntoLines, groupLinesIntoSections or
    extractResumeFromSections: for parseResumeFromFile when readDocument
    fails, and for parseResumeFromPdf when readPdf fails, each on its
    own. *)
Theorem reader_failure_skips_stages :
  (forall (world : World) (file : File) (error : Thrown),
      outcome (readDocument Lines Sections world file) = Throw error ->
      let fromFile :=
        parseResumeFromFile groupTextItemsIntoLines groupLinesIntoSections
                            extractResumeFromSections world file in
      outcome fromFile = Throw error
      /\ stage_calls (calls fromFile) = [])
  /\ (forall (world : World) (fileUrl : JsString) (error : Thrown),
         outcome (readPdf Lines Sections world fileUrl) = Throw error ->
         let fromPdf :=
           parseResumeFromPdf groupTextItemsIntoLines groupLinesIntoSections
                              extractResumeFromSections world fileUrl in
         outcome fromPdf = Throw error
         /\ stage_calls (calls fromPdf) = []).
Proof.
  split.
  - intros world file error H fromFile.
    unfold fromFile, parseResumeFromFile.
    rewrite pipeline_spec, H. cbn [outcome calls fst snd].
    split; [reflexivity|apply readDocument_no_stage_call].
  - intros world fileUrl error H fromPdf.
    unfold fromPdf, parseResumeFromPdf.
    rewrite pipeline_spec, H. cbn [outcome calls fst snd].
    split; [reflexivity|apply readPdf_no_stage_call].
Qed.

(** C3. An empty element list is not an error: the converter maps it to
    the empty list, readDocument returns the empty list of text items, and
    parseResumeFromFile returns what the stages make of it. *)
Theorem empty_elements_are_not_an_error (world : World) (file : File) :
  outcome (parseDocumentWithUnstructured Lines Sections world file) = Ok [] ->
  (forall limit, convertUnstructuredToTextItems limit [] = Ok [])
  /\ outcome (readDocument Lines Sections world file) = Ok []
  /\ outcome (parseResumeFromFile groupTextItemsIntoLines
                                  groupLinesIntoSections
                                  extractResumeFromSections world file)
     = Ok (extractResumeFromSections
             (groupLinesIntoSections (groupTextItemsIntoLines []))).
Proof.
  intros H.
  assert (Hd : outcome (readDocument Lines Sections world file) = Ok []).
  { rewrite readDocument_spec. cbv zeta. rewrite H. reflexivity. }
  repeat split; [exact Hd|].
  unfold parseResumeFromFile. rewrite pipeline_spec, Hd. reflexivity.
Qed.

(** C10. The empty-space filter of readDocument removes nothing: no item
    the converter returns satisfies isEmptySpace, filtering leaves the list
    as it is, and on the success path, where
    parseDocumentWithUnstructured returns [elements] and the converter
    returns their items, readDocument returns exactly these items, with the
    same calls. *)
Theorem empty_space_filter_is_noop
        (world : World) (file : File)
        (elements : list UnstructuredElement) (textItems : TextItems) :
  outcome (parseDocumentWithUnstructured Lines Sections world file)
  = Ok elements ->
  convertUnstructuredToTextItems (spread_limit world) elements
  = Ok textItems ->
  Forall (fun textItem => isEmptySpace textItem = false) textItems
  /\ filter (fun textItem => negb (isEmptySpace textItem)) textItems
     = textItems
  /\ readDocument Lines Sections world file
     = (calls (parseDocumentWithUnstructured Lines Sections world file),
        Ok textItems).
Proof.
  intros H E.
  assert (I : textItems = items_of elements) by (now apply convert_Ok in E).
  split; [rewrite I; apply isEmptySpace_items|].
  split; [rewrite I; apply empty_space_filter|].
  rewrite readDocument_spec. cbv zeta. rewrite H, E. reflexivity.
Qed.

(** C1, amended. A value thrown while reading that is not an Error object
    reaches the caller unchanged; an Error object is caught and replaced by
    a new Error whose message is the caught message behind a prefix:
    "Failed to read document: " in readDocument, for what
    parseDocumentWithUnstructured threw and for what the converter threw,
    "Failed to read PDF from URL: " in readPdf for what its fetch threw.
    The entry points add no handler: whatever their reader throws, they
    throw the same. Each of these holds on its own. *)
Theorem reader_failure_is_rewrapped :
  let rewrapped (prefix : JsString) (error : Thrown) : Thrown :=
    match error with
    | ErrorObject _ message => ErrorObject (lit "Error") (prefix ++ message)
    | NonError v => NonError v
    end in
  (forall (world : World) (file : File) (error : Thrown),
      outcome (parseDocumentWithUnstructured Lines Sections world file)
      = Throw error ->
      outcome (readDocument Lines Sections world file)
      = Throw (rewrapped (lit "Failed to read document: ") error))
  /\ (forall (world : World) (file : File)
             (elements : list UnstructuredElement) (error : Thrown),
         outcome (parseDocumentWithUnstructured Lines Sections world file)
         = Ok elements ->
         convertUnstructuredToTextItems (spread_limit world) elements
         = Throw error ->
         outcome (readDocument Lines Sections world file)
         = Throw (rewrapped (lit "Failed to read document: ") error))
  /\ (forall (world : World) (fileUrl : JsString) (error : Thrown),
         fetch_outcome world fileUrl None = Throw error ->
         outcome (readPdf Lines Sections world fileUrl)
         = Throw (rewrapped (lit "Failed to read PDF from URL: ") error))
  /\ (forall (world : World) (file : File) (error : Thrown),
         outcome (readDocument Lines Sections world file) = Throw error ->
         outcome (parseResumeFromFile groupTextItemsIntoLines
                                      groupLinesIntoSections
                                      extractResumeFromSections world file)
         = Throw error)
  /\ (forall (world : World) (fileUrl : JsString) (error : Thrown),
         outcome (readPdf Lines Sections world fileUrl) = Throw error ->
         outcome (parseResumeFromPdf groupTextItemsIntoLines
                                     groupLinesIntoSections
                                     extractResumeFromSections world fileUrl)
         = Throw error).
Proof.
  cbv zeta. repeat split.
  - intros world file error H.
    rewrite readDocument_spec. cbv zeta. rewrite H. reflexivity.
  - intros world file elements error H E.
    rewrite readDocument_spec. cbv zeta. rewrite H, E. reflexivity.
  - intros world fileUrl error H.
    rewrite (readPdf_fetch_failure _ _ H). reflexivity.
  - intros world file error H.
    unfold parseResumeFromFile. rewrite pipeline_spec, H. reflexivity.
  - intros world fileUrl error H.
    unfold parseResumeFromPdf. rewrite pipeline_spec, H. reflexivity.
Qed.

End PipelineFacts.


(* ================================================================== *)
(** ** The reader and the pipeline on the sample worlds *)

(** Offline, the rejection of [fetch] is wrapped once by
    parseDocumentWithUnstructured and once more by readDocument. *)
Lemma offline_readDocument :
  readDocument SampleWorld.Lines SampleWorld.Sections
               SampleWorld.offline SampleWorld.file
  = ([CallFetch
        (lit "https://api.unstructured.io/general/v0/general")
        (Some (mkRequestInit
                 (lit "POST")
                 [(lit "unstructured-api-key", lit "key")]
                 [(lit "files", FormFile SampleWorld.file);
                  (lit "strategy", FormString (lit "hi_res"));
                  (lit "coordinates", FormString (lit "true"))]))],
     Throw (ErrorObject
              (lit "Error")
              (lit "Failed to read document: Failed to parse document with Unstructured API: fetch failed"))).
Proof. vm_compute. reflexivity. Qed.

(** With an engine that cannot spread the four points of the title, the
    service answers and readDocument still fails. *)
Lemma cramped_readDocument :
  outcome (readDocument SampleWorld.Lines SampleWorld.Sections
                        (SampleWorld.cramped Sample.elements)
                        SampleWorld.file)
  = Throw (ErrorObject
             (lit "Error")
             (lit "Failed to read document: Maximum call stack size exceeded")).
Proof. vm_compute. reflexivity. Qed.

(** C1, as stated, fails: an Error thrown by
    parseDocumentWithUnstructured, or by the fetch of readPdf, reaches the
    caller of readDocument, or of readPdf, as another Error with a longer
    message. *)
Lemma reader_failure_counterexample :
  ~ (forall (world : World) (file : File) (error : Thrown),
        outcome (parseDocumentWithUnstructured
                   SampleWorld.Lines SampleWorld.Sections world file)
        = Throw error ->
        outcome (readDocument SampleWorld.Lines SampleWorld.Sections
                              world file)
        = Throw error)
  /\ ~ (forall (world : World) (fileUrl : JsString) (error : Thrown),
           fetch_outcome world fileUrl None = Throw error ->
           outcome (readPdf SampleWorld.Lines SampleWorld.Sections
                            world fileUrl)
           = Throw error).
Proof.
  split; intros H.
  - specialize (H SampleWorld.offline SampleWorld.file
                  (ErrorObject
                     (lit "Error")
                     (lit "Failed to parse document with Unstructured API: fetch failed"))
                  eq_refl).
    vm_compute in H. discriminate H.
  - specialize (H SampleWorld.offline SampleWorld.fileUrl
                  SampleWorld.fetch_failed eq_refl).
    vm_compute in H. discriminate H.
Qed.

Lemma reader_failure_is_rewrapped_witness :
  outcome (readDocument SampleWorld.Lines SampleWorld.Sections
                        SampleWorld.offline SampleWorld.file)
  = Throw (ErrorObject
             (lit "Error")
             (lit "Failed to read document: Failed to parse document with Unstructured API: fetch failed"))
  /\ outcome (readDocument SampleWorld.Lines SampleWorld.Sections
                           (SampleWorld.cramped Sample.elements)
                           SampleWorld.file)
     = Throw (ErrorObject
                (lit "Error")
                (lit "Failed to read document: Maximum call stack size exceeded"))
  /\ outcome (readPdf SampleWorld.Lines SampleWorld.Sections
                      SampleWorld.offline SampleWorld.fileUrl)
     = Throw (ErrorObject
                (lit "Error")
                (lit "Failed to read PDF from URL: fetch failed"))
  /\ outcome (parseResumeFromFile SampleWorld.groupTextItemsIntoLines
                                  SampleWorld.groupLinesIntoSections
                                  SampleWorld.extractResumeFromSections
                                  (SampleWorld.cramped Sample.elements)
                                  SampleWorld.file)
     = Throw (ErrorObject
                (lit "Error")
                (lit "Failed to read document: Maximum call stack size exceeded"))
  /\ outcome (parseResumeFromPdf SampleWorld.groupTextItemsIntoLines
                                 SampleWorld.groupLinesIntoSections
                                 SampleWorld.extractResumeFromSections
                                 SampleWorld.offline SampleWorld.fileUrl)
     = Throw (ErrorObject
                (lit "Error")
                (lit "Failed to read PDF from URL: fetch failed")).
Proof.
  destruct (@reader_failure_is_rewrapped
              SampleWorld.Lines SampleWorld.Sections SampleWorld.Resume
              SampleWorld.groupTextItemsIntoLines
              SampleWorld.groupLinesIntoSections
              SampleWorld.extractResumeFromSections)
    as (T1 & T2 & T3 & T4 & T5).
  split; [|split; [|split; [|split]]].
  - exact (T1 SampleWorld.offline SampleWorld.file
              (ErrorObject
                 (lit "Error")
                 (lit "Failed to parse document with Unstructured API: fetch failed"))
              eq_refl).
  - exact (T2 (SampleWorld.cramped Sample.elements) SampleWorld.file
              Sample.elements RangeError_stack eq_refl eq_refl).
  - exact (T3 SampleWorld.offline SampleWorld.fileUrl
              SampleWorld.fetch_failed eq_refl).
  - exact (T4 (SampleWorld.cramped Sample.elements) SampleWorld.file
              _ cramped_readDocument).
  - exact (T5 SampleWorld.offline SampleWorld.fileUrl
              (ErrorObject (lit "Error")
                           (lit "Failed to read PDF from URL: fetch failed"))
              eq_refl).
Defined.

Lemma reader_failure_skips_stages_witness :
  (outcome (parseResumeFromFile SampleWorld.groupTextItemsIntoLines
                                SampleWorld.groupLinesIntoSections
                                SampleWorld.extractResumeFromSections
                                SampleWorld.offline SampleWorld.file)
   = Throw (ErrorObject
              (lit "Error")
              (lit "Failed to read document: Failed to parse document with Unstructured API: fetch failed"))
   /\ stage_calls
        (calls (parseResumeFromFile SampleWorld.groupTextItemsIntoLines
                                    SampleWorld.groupLinesIntoSections
                                    SampleWorld.extractResumeFromSections
                                    SampleWorld.offline SampleWorld.file))
      = [])
  /\ (outcome (parseResumeFromPdf SampleWorld.groupTextItemsIntoLines
                                  SampleWorld.groupLinesIntoSections
                                  SampleWorld.extractResumeFromSections
                                  (SampleWorld.cramped Sample.elements)
                                  SampleWorld.fileUrl)
      = Throw (ErrorObject
                 (lit "Error")
                 (lit "Failed to read document: Maximum call stack size exceeded"))
      /\ stage_calls
           (calls (parseResumeFromPdf SampleWorld.groupTextItemsIntoLines
                                      SampleWorld.groupLinesIntoSections
                                      SampleWorld.extractResumeFromSections
                                      (SampleWorld.cramped Sample.elements)
                                      SampleWorld.fileUrl))
         = []).
Proof.
  destruct (@reader_failure_skips_stages
              SampleWorld.Lines SampleWorld.Sections SampleWorld.Resume
              SampleWorld.groupTextItemsIntoLines
              SampleWorld.groupLinesIntoSections
              SampleWorld.extractResumeFromSections)
    as (T1 & T2).
  split.
  - exact (T1 SampleWorld.offline SampleWorld.file
              (ErrorObject
                 (lit "Error")
                 (lit "Failed to read document: Failed to parse document with Unstructured API: fetch failed"))
              eq_refl).
  - exact (T2 (SampleWorld.cramped Sample.elements) SampleWorld.fileUrl
              (ErrorObject
                 (lit "Error")
                 (lit "Failed to read document: Maximum call stack size exceeded"))
              eq_refl).
Defined.

Lemma empty_elements_are_not_an_error_witness :
  (forall limit, convertUnstructuredToTextItems limit [] = Ok [])
  /\ outcome (readDocument SampleWorld.Lines SampleWorld.Sections
                           (SampleWorld.answering []) SampleWorld.file)
     = Ok []
  /\ outcome (parseResumeFromFile SampleWorld.groupTextItemsIntoLines
                                  SampleWorld.groupLinesIntoSections
                                  SampleWorld.extractResumeFromSections
                                  (SampleWorld.answering [])
                                  SampleWorld.file)
     = Ok 1.
Proof.
  exact (@empty_elements_are_not_an_error
           SampleWorld.Lines SampleWorld.Sections SampleWorld.Resume
           SampleWorld.groupTextItemsIntoLines
           SampleWorld.groupLinesIntoSections
           SampleWorld.extractResumeFromSections
           (SampleWorld.answering []) SampleWorld.file eq_refl).
Defined.

Lemma empty_space_filter_is_noop_witness :
  Forall (fun textItem => isEmptySpace textItem = false)
         (items_of Sample.elements)
  /\ filter (fun textItem => negb (isEmptySpace textItem))
            (items_of Sample.elements)
     = items_of Sample.elements
  /\ readDocument SampleWorld.Lines SampleWorld.Sections
                  (SampleWorld.answering Sample.elements) SampleWorld.file
     = (calls (parseDocumentWithUnstructured
                 SampleWorld.Lines SampleWorld.Sections
                 (SampleWorld.answering Sample.elements) SampleWorld.file),
        Ok (items_of Sample.elements)).
Proof.
  apply (@empty_space_filter_is_noop
           SampleWorld.Lines SampleWorld.Sections
           (SampleWorld.answering Sample.elements) SampleWorld.file
           Sample.elements (items_of Sample.elements));
    vm_compute; reflexivity.
Defined.

(** The whole pipeline on the sample document: one request, then the three
    stages, each on the result of the one before. *)
Lemma sample_run :
  parseResumeFromFile SampleWorld.groupTextItemsIntoLines
                      SampleWorld.groupLinesIntoSections
                      SampleWorld.extractResumeFromSections
                      (SampleWorld.answering Sample.elements)
                      SampleWorld.file
  = (calls (parseDocumentWithUnstructured
              SampleWorld.Lines SampleWorld.Sections
              (SampleWorld.answering Sample.elements) SampleWorld.file)
       ++ [CallGroupTextItemsIntoLines (items_of Sample.elements);
           CallGroupLinesIntoSections [lit "John Doe"; lit "john@x.com"];
           CallExtractResumeFromSections
             [[lit "John Doe"; lit "john@x.com"]]],
     Ok 1).
Proof. vm_compute. reflexivity. Qed.
(* ================================================================== *)
(** * Further properties of the reader *)

(** ** The request of parseDocumentWithUnstructured *)

(** [process.env.NEXT_PUBLIC_UNSTRUCTURED_API_URL || <default>] *)
Definition apiUrl_of (world : World) : JsString :=
  or_string (or_undefined (NEXT_PUBLIC_UNSTRUCTURED_API_URL world))
            (lit "https://api.unstructured.io/general/v0/general").

(** The second argument of the [fetch] call. *)
Definition request_of (apiKey : JsString) (file : File) : RequestInit :=
  mkRequestInit (lit "POST")
                [(lit "unstructured-api-key", apiKey)]
                [ (lit "files", FormFile file);
                  (lit "strategy", FormString (lit "hi_res"));
                  (lit "coordinates", FormString (lit "true")) ].

(** The calls of a log that go to the network. *)
Definition fetch_calls (Lines Sections : Type)
           (log : list (Event Lines Sections)) : list (Event Lines Sections) :=
  filter (fun ev => negb (is_stage_call ev)) log.

Section ReaderFacts.

Variables Lines Sections Resume : Type.
Variable groupTextItemsIntoLines : TextItems -> Lines.
Variable groupLinesIntoSections : Lines -> Sections.
Variable extractResumeFromSections : Sections -> Resume.

(** parseDocumentWithUnstructured with the key set, by the outcome of its
    request. *)
Lemma parseDocument_with_key (world : World) (file : File)
      (apiKey : JsString) :
  NEXT_PUBLIC_UNSTRUCTURED_API_KEY world = Some apiKey ->
  apiKey <> [] ->
  parseDocumentWithUnstructured Lines Sections world file
  = ([CallFetch (apiUrl_of world) (Some (request_of apiKey file))],
     match fetch_outcome world (apiUrl_of world)
                         (Some (request_of apiKey file)) with
     | Ok response =>
         if ok response then
           match json response with
           | Ok elements => Ok elements
           | Throw error =>
               Throw (rethrown
                        (lit "Failed to parse document with Unstructured API: ")
                        error)
           end
         else
           match text response with
           | Ok errorText =>
               Throw (new_Error
                        (lit "Failed to parse document with Unstructured API: "
                         ++ lit "Unstructured API request failed: "
                         ++ string_of_N (status response) ++ lit " "
                         ++ statusText response ++ lit " - " ++ errorText))
           | Throw error =>
               Throw (rethrown
                        (lit "Failed to parse document with Unstructured API: ")
                        error)
           end
     | Throw error =>
         Throw (rethrown
                  (lit "Failed to parse document with Unstructured API: ")
                  error)
     end).
Proof.
  intros Hk Hne.
  unfold parseDocumentWithUnstructured, fetch. rewrite Hk.
  cbn [or_undefined]. fold (apiUrl_of world). fold (request_of apiKey file).
  destruct apiKey as [|c apiKey]; [congruence|]. cbn [truthy_string negb].
  destruct (fetch_outcome world _ _) as [response|error]; cbn [bind].
  - destruct (ok response); cbn [negb].
    + destruct (json response); run_m; reflexivity.
    + destruct (text response); run_m; reflexivity.
  - run_m. reflexivity.
Qed.

(** X1. Without an API key (the variable unset or empty)
    parseDocumentWithUnstructured throws its configuration error before any
    request is made, and readDocument delivers it behind its own prefix,
    again with no request. *)
Theorem missing_key_fails_before_any_request (world : World) (file : File) :
  NEXT_PUBLIC_UNSTRUCTURED_API_KEY world = None
  \/ NEXT_PUBLIC_UNSTRUCTURED_API_KEY world = Some [] ->
  parseDocumentWithUnstructured Lines Sections world file
  = ([], Throw (ErrorObject
                  (lit "Error")
                  (lit "Unstructured API key not configured. Please set NEXT_PUBLIC_UNSTRUCTURED_API_KEY environment variable.")))
  /\ readDocument Lines Sections world file
     = ([], Throw (ErrorObject
                     (lit "Error")
                     (lit "Failed to read document: Unstructured API key not configured. Please set NEXT_PUBLIC_UNSTRUCTURED_API_KEY environment variable."))).
Proof.
  intros H.
  assert (Hp : parseDocumentWithUnstructured Lines Sections world file
               = ([], Throw (new_Error (lit "Unstructured API key not configured. Please set NEXT_PUBLIC_UNSTRUCTURED_API_KEY environment variable.")))).
  { unfold parseDocumentWithUnstructured.
    destruct H as [H|H]; rewrite H; reflexivity. }
  split; [exact Hp|].
  rewrite readDocument_spec. cbv zeta. rewrite Hp. reflexivity.
Qed.

(** X2. With an API key, parseDocumentWithUnstructured makes exactly one
    request whatever its outcome: a POST to the configured URL, or to the
    default one when none is configured, with the key in the
    unstructured-api-key header and a form holding the file, strategy
    hi_res and coordinates true, in this order. readDocument makes the same
    single request. *)
Theorem one_request_with_key (world : World) (file : File)
        (apiKey : JsString) :
  NEXT_PUBLIC_UNSTRUCTURED_API_KEY world = Some apiKey ->
  apiKey <> [] ->
  let url :=
    match NEXT_PUBLIC_UNSTRUCTURED_API_URL world with
    | Some (c :: configured) => c :: configured
    | _ => lit "https://api.unstructured.io/general/v0/general"
    end in
  let init :=
    mkRequestInit (lit "POST")
                  [(lit "unstructured-api-key", apiKey)]
                  [ (lit "files", FormFile file);
                    (lit "strategy", FormString (lit "hi_res"));
                    (lit "coordinates", FormString (lit "true")) ] in
  calls (parseDocumentWithUnstructured Lines Sections world file)
  = [CallFetch url (Some init)]
  /\ calls (readDocument Lines Sections world file)
     = [CallFetch url (Some init)].
Proof.
  intros Hk Hne url init.
  assert (Hu : apiUrl_of world = url).
  { unfold apiUrl_of, url.
    destruct (NEXT_PUBLIC_UNSTRUCTURED_API_URL world) as [[|c u]|];
      reflexivity. }
  assert (Hp : calls (parseDocumentWithUnstructured Lines Sections world file)
               = [CallFetch url (Some init)]).
  { rewrite (parseDocument_with_key world file Hk Hne), Hu. reflexivity. }
  split; [exact Hp|].
  rewrite readDocument_calls. exact Hp.
Qed.

(** X3. When the service answers with a status that is not ok and the body
    can be read, parseDocumentWithUnstructured throws an Error whose message
    gives the status, the status text and the body, behind the prefix of
    its own catch clause; [response.json()] plays no part. *)
Theorem not_ok_response_is_reported (world : World) (file : File)
        (apiKey : JsString) (response : Response) (errorText : JsString) :
  NEXT_PUBLIC_UNSTRUCTURED_API_KEY world = Some apiKey ->
  apiKey <> [] ->
  fetch_outcome world (apiUrl_of world) (Some (request_of apiKey file))
  = Ok response ->
  ok response = false ->
  text response = Ok errorText ->
  outcome (parseDocumentWithUnstructured Lines Sections world file)
  = Throw (ErrorObject
             (lit "Error")
             (lit "Failed to parse document with Unstructured API: Unstructured API request failed: "
              ++ string_of_N (status response) ++ lit " "
              ++ statusText response ++ lit " - " ++ errorText)).
Proof.
  intros Hk Hne Hf Hok Ht.
  rewrite (parseDocument_with_key world file Hk Hne).
  cbn [outcome snd]. rewrite Hf, Hok, Ht. reflexivity.
Qed.

(** X4. What the request of parseDocumentWithUnstructured rejects with
    reaches the caller of readDocument and of parseResumeFromFile through
    two catch clauses: a value that is not an Error object unchanged, an
    Error object as a plain Error (its name is not kept) whose message
    carries both prefixes. *)
Theorem request_failure_is_wrapped_twice (world : World) (file : File)
        (apiKey : JsString) (error : Thrown) :
  NEXT_PUBLIC_UNSTRUCTURED_API_KEY world = Some apiKey ->
  apiKey <> [] ->
  fetch_outcome world (apiUrl_of world) (Some (request_of apiKey file))
  = Throw error ->
  let delivered :=
    match error with
    | ErrorObject _ message =>
        ErrorObject
          (lit "Error")
          (lit "Failed to read document: Failed to parse document with Unstructured API: "
           ++ message)
    | NonError v => NonError v
    end in
  outcome (readDocument Lines Sections world file) = Throw delivered
  /\ outcome (parseResumeFromFile groupTextItemsIntoLines
                                  groupLinesIntoSections
                                  extractResumeFromSections world file)
     = Throw delivered.
Proof.
  intros Hk Hne Hf delivered.
  assert (Hd : outcome (readDocument Lines Sections world file)
               = Throw delivered).
  { rewrite readDocument_spec. cbv zeta.
    rewrite (parseDocument_with_key world file Hk Hne).
    cbn [outcome snd]. rewrite Hf. destruct error; reflexivity. }
  split; [exact Hd|].
  unfold parseResumeFromFile. rewrite pipeline_spec, Hd. reflexivity.
Qed.

(** X5. When the service answers ok, the body parses to [elements] and the
    converter returns their text items, parseDocumentWithUnstructured
    returns the elements as they are, readDocument returns the text items
    and parseResumeFromFile returns what the three stages make of these. *)
Theorem ok_response_end_to_end (world : World) (file : File)
        (apiKey : JsString) (response : Response)
        (elements : list UnstructuredElement) (textItems : TextItems) :
  NEXT_PUBLIC_UNSTRUCTURED_API_KEY world = Some apiKey ->
  apiKey <> [] ->
  fetch_outcome world (apiUrl_of world) (Some (request_of apiKey file))
  = Ok response ->
  ok response = true ->
  json response = Ok elements ->
  convertUnstructuredToTextItems (spread_limit world) elements
  = Ok textItems ->
  outcome (parseDocumentWithUnstructured Lines Sections world file)
  = Ok elements
  /\ outcome (readDocument Lines Sections world file) = Ok textItems
  /\ outcome (parseResumeFromFile groupTextItemsIntoLines
                                  groupLinesIntoSections
                                  extractResumeFromSections world file)
     = Ok (extractResumeFromSections
             (groupLinesIntoSections (groupTextItemsIntoLines textItems))).
Proof.
  intros Hk Hne Hf Hok Hj Hc.
  assert (Hp : outcome (parseDocumentWithUnstructured Lines Sections
                                                      world file)
               = Ok elements).
  { rewrite (parseDocument_with_key world file Hk Hne).
    cbn [outcome snd]. rewrite Hf, Hok, Hj. reflexivity. }
  assert (Hd : outcome (readDocument Lines Sections world file)
               = Ok textItems).
  { rewrite readDocument_spec. cbv zeta. rewrite Hp, Hc. reflexivity. }
  repeat split; auto.
  unfold parseResumeFromFile. rewrite pipeline_spec, Hd. reflexivity.
Qed.

(** X18. When the service answers ok and the body parses to [elements] but
    some element with non-blank text has more points than the engine can
    spread, the one request has been made and readDocument and
    parseResumeFromFile fail with Error "Failed to read document: " followed
    by the message of the engine's RangeError; no stage is called. *)
Theorem oversized_points_fail_after_the_request
        (world : World) (file : File)
        (apiKey : JsString) (response : Response)
        (elements : list UnstructuredElement)
        (element : UnstructuredElement) :
  NEXT_PUBLIC_UNSTRUCTURED_API_KEY world = Some apiKey ->
  apiKey <> [] ->
  fetch_outcome world (apiUrl_of world) (Some (request_of apiKey file))
  = Ok response ->
  ok response = true ->
  json response = Ok elements ->
  In element elements ->
  is_blank (UnstructuredElement.text element) = false ->
  (N.pos (spread_limit world) < N.of_nat (points_count element))%N ->
  let failure :=
    ErrorObject (lit "Error")
                (lit "Failed to read document: "
                 ++ message_of RangeError_stack) in
  readDocument Lines Sections world file
  = ([CallFetch (apiUrl_of world) (Some (request_of apiKey file))],
     Throw failure)
  /\ parseResumeFromFile groupTextItemsIntoLines groupLinesIntoSections
                         extractResumeFromSections world file
     = ([CallFetch (apiUrl_of world) (Some (request_of apiKey file))],
        Throw failure).
Proof.
  intros Hk Hne Hf Hok Hj Hin Hb Hl failure.
  assert (Hc : convertUnstructuredToTextItems (spread_limit world) elements
               = Throw RangeError_stack).
  { rewrite convert_spec.
    replace (forallb _ _) with false; [reflexivity|].
    symmetry. apply not_true_is_false. intros F.
    rewrite forallb_forall in F. specialize (F element).
    unfold fits in F. apply N.ltb_lt in Hl. rewrite N.ltb_antisym in Hl.
    apply negb_true_iff in Hl. rewrite Hl in F. discriminate F.
    apply filter_In. split; [exact Hin|]. now rewrite has_text_spec, Hb. }
  assert (Hd : readDocument Lines Sections world file
               = ([CallFetch (apiUrl_of world)
                             (Some (request_of apiKey file))],
                  Throw failure)).
  { rewrite readDocument_spec. cbv zeta.
    rewrite (parseDocument_with_key world file Hk Hne).
    cbn [outcome calls fst snd]. rewrite Hf, Hok, Hj, Hc. reflexivity. }
  split; [exact Hd|].
  unfold parseResumeFromFile. rewrite pipeline_spec, Hd. reflexivity.
Qed.

End ReaderFacts.

(* ================================================================== *)
(** ** File names from URLs *)

Section FileNames.

Variable sep : CodeUnit.

Definition no_sep (s : JsString) : Prop := Forall (fun c => c <> sep) s.

Lemma split_not_nil (s : JsString) : split sep s <> [].
Proof.
  destruct s as [|c rest]; cbn [split]; [discriminate|].
  destruct (c =? sep)%N; [discriminate|].
  destruct (split sep rest); discriminate.
Qed.

Lemma split_no_sep (s : JsString) : no_sep s -> split sep s = [s].
Proof.
  induction 1 as [|c rest Hc _ IH]; cbn [split]; [reflexivity|].
  apply N.eqb_neq in Hc. now rewrite Hc, IH.
Qed.

Lemma split_segments_no_sep (s : JsString) : Forall no_sep (split sep s).
Proof.
  induction s as [|c rest IH]; cbn [split].
  - repeat constructor.
  - destruct (N.eqb_spec c sep) as [E|E].
    + constructor; [constructor|exact IH].
    + destruct (split sep rest) as [|seg segs].
      * repeat constructor. exact E.
      * inversion IH as [|? ? Hseg Hsegs]; subst.
        constructor; [constructor; assumption|assumption].
Qed.

Lemma split_app_sep (dir name : JsString) :
  exists p ps, split sep (dir ++ sep :: name) = (p :: ps) ++ split sep name.
Proof.
  induction dir as [|c dir (p & ps & IH)]; cbn [app split].
  - exists [], []. now rewrite N.eqb_refl.
  - destruct (c =? sep)%N.
    + exists [], (p :: ps). now rewrite IH.
    + rewrite IH. exists (c :: p), ps. reflexivity.
Qed.

Lemma pop_app (A : Type) (l1 l2 : list A) :
  l2 <> [] -> pop (l1 ++ l2) = pop l2.
Proof.
  intros H. unfold pop. rewrite rev_app_distr.
  destruct (rev l2) as [|last l] eqn:E; [|reflexivity].
  apply (f_equal (@rev A)) in E. rewrite rev_involutive in E.
  now destruct H.
Qed.

Lemma pop_In (A : Type) (l : list A) (a : A) : pop l = Some a -> In a l.
Proof.
  unfold pop. destruct (rev l) as [|last l'] eqn:E; [discriminate|].
  intros H. injection H as <-. apply in_rev. rewrite E. now left.
Qed.

(** The last segment of [dir/name] is [name]. *)
Lemma pop_split_last (dir name : JsString) :
  no_sep name -> pop (split sep (dir ++ sep :: name)) = Some name.
Proof.
  intros H. destruct (split_app_sep dir name) as (p & ps & E).
  rewrite E, pop_app by apply split_not_nil.
  now rewrite (split_no_sep H).
Qed.

Lemma pop_split_no_sep (s seg : JsString) :
  pop (split sep s) = Some seg -> no_sep seg.
Proof.
  intros H. apply pop_In in H.
  pose proof (split_segments_no_sep s) as F.
  rewrite Forall_forall in F. auto.
Qed.

End FileNames.

(** X6. The file name readPdf gives the fetched document is never empty and
    holds no slash: it is the part of the URL after its last slash, and
    "document" when that part is empty (the URL is empty or ends in a
    slash). *)
Theorem filename_of_url_spec (fileUrl : JsString) :
  filename_of_url fileUrl <> []
  /\ Forall (fun c => c <> 47%N) (filename_of_url fileUrl)
  /\ (forall dir name,
         fileUrl = dir ++ 47%N :: name ->
         Forall (fun c => c <> 47%N) name ->
         filename_of_url fileUrl
         = match name with [] => lit "document" | _ :: _ => name end)
  /\ (Forall (fun c => c <> 47%N) fileUrl ->
      filename_of_url fileUrl
      = match fileUrl with [] => lit "document" | _ :: _ => fileUrl end).
Proof.
  unfold filename_of_url. repeat split.
  - unfold or_string.
    destruct (or_undefined _) as [|c s]; cbn [truthy_string]; discriminate.
  - unfold or_string, or_undefined.
    destruct (pop (split 47%N fileUrl)) as [seg|] eqn:E.
    + destruct seg as [|c seg]; cbn [truthy_string].
      * repeat constructor; discriminate.
      * eapply pop_split_no_sep. exact E.
    + cbn [truthy_string]. repeat constructor; discriminate.
  - intros dir name -> Hn.
    rewrite pop_split_last by exact Hn. cbn [or_undefined].
    destruct name; reflexivity.
  - intros Hn. rewrite split_no_sep by exact Hn.
    unfold pop. cbn [rev app or_undefined].
    destruct fileUrl; reflexivity.
Qed.

(* ================================================================== *)
(** ** readPdf and the number of requests *)

Lemma filter_none_negb (A : Type) (p : A -> bool) (l : list A) :
  filter p l = [] -> filter (fun a => negb (p a)) l = l.
Proof.
  induction l as [|a l IH]; cbn [filter]; [reflexivity|].
  destruct (p a); [discriminate|]. cbn [negb]. intros H. now rewrite IH.
Qed.

Section PdfFacts.

Variables Lines Sections Resume : Type.
Variable groupTextItemsIntoLines : TextItems -> Lines.
Variable groupLinesIntoSections : Lines -> Sections.
Variable extractResumeFromSections : Sections -> Resume.

Lemma readPdf_of_blob (world : World) (fileUrl : JsString)
      (response : Response) (b : Blob) :
  fetch_outcome world fileUrl None = Ok response ->
  blob response = Ok b ->
  readPdf Lines Sections world fileUrl
  = (let read :=
       readDocument Lines Sections world
                    (mkFile [b] (filename_of_url fileUrl) (blob_type b)) in
     (CallFetch fileUrl None :: calls read, outcome read)).
Proof.
  intros Hf Hb. unfold readPdf, fetch. rewrite Hf.
  cbn [bind]. rewrite Hb. run_m. cbv zeta.
  destruct (readDocument _ _ _ _) as [log r]. reflexivity.
Qed.

Lemma readPdf_blob_failure (world : World) (fileUrl : JsString)
      (response : Response) (error : Thrown) :
  fetch_outcome world fileUrl None = Ok response ->
  blob response = Throw error ->
  readPdf Lines Sections world fileUrl
  = ([CallFetch fileUrl None],
     Throw (rethrown (lit "Failed to read PDF from URL: ") error)).
Proof.
  intros Hf Hb. unfold readPdf, fetch. rewrite Hf.
  cbn [bind]. rewrite Hb. run_m. reflexivity.
Qed.

Lemma parseDocument_calls_bound (world : World) (file : File) :
  (List.length
     (calls (parseDocumentWithUnstructured Lines Sections world file))
   <= 1)%nat.
Proof.
  destruct (NEXT_PUBLIC_UNSTRUCTURED_API_KEY world) as [[|c k]|] eqn:Hk.
  - unfold parseDocumentWithUnstructured. rewrite Hk. cbn. auto.
  - rewrite (parseDocument_with_key Lines Sections world file Hk)
      by discriminate.
    cbn. auto.
  - unfold parseDocumentWithUnstructured. rewrite Hk. cbn. auto.
Qed.

Lemma readDocument_calls_bound (world : World) (file : File) :
  (List.length (calls (readDocument Lines Sections world file)) <= 1)%nat.
Proof. rewrite readDocument_calls. apply parseDocument_calls_bound. Qed.

Lemma readPdf_calls_bound (world : World) (fileUrl : JsString) :
  (List.length (calls (readPdf Lines Sections world fileUrl)) <= 2)%nat.
Proof.
  destruct (fetch_outcome world fileUrl None) as [response|error] eqn:Hf.
  - destruct (blob response) as [b|error] eqn:Hb.
    + rewrite (readPdf_of_blob world fileUrl Hf Hb). cbv zeta.
      cbn [calls fst List.length].
      apply le_n_S, readDocument_calls_bound.
    + rewrite (readPdf_blob_failure world fileUrl Hf Hb). cbn. auto.
  - rewrite (readPdf_fetch_failure Lines Sections world fileUrl Hf).
    cbn. auto.
Qed.

Lemma pipeline_fetch_calls (read : M Lines Sections TextItems) :
  stage_calls (calls read) = [] ->
  fetch_calls
    (calls
       (bind read (fun textItems =>
          bind (call CallGroupTextItemsIntoLines groupTextItemsIntoLines
                     textItems)
            (fun lines =>
          bind (call CallGroupLinesIntoSections groupLinesIntoSections lines)
            (fun sections =>
          bind (call CallExtractResumeFromSections extractResumeFromSections
                     sections)
            (fun resume => ret Lines Sections resume))))))
  = calls read.
Proof.
  intros H. rewrite pipeline_spec.
  pose proof (filter_none_negb _ _ H) as F.
  destruct read as [log [textItems|error]]; cbn [outcome calls fst snd] in *.
  - unfold fetch_calls. rewrite filter_app, F. cbn. apply app_nil_r.
  - exact F.
Qed.

(** X7. Once its own fetch and [response.blob()] have succeeded, readPdf
    behaves as readDocument on a file made of the blob, named after the URL
    and typed as the blob: same further calls, same outcome, an error of
    readDocument included, which gets no "Failed to read PDF from URL: "
    prefix. parseResumeFromPdf then behaves as parseResumeFromFile on that
    file. *)
Theorem readPdf_continues_as_readDocument
        (world : World) (fileUrl : JsString)
        (response : Response) (b : Blob) :
  fetch_outcome world fileUrl None = Ok response ->
  blob response = Ok b ->
  let file := mkFile [b] (filename_of_url fileUrl) (blob_type b) in
  let fromFile :=
    parseResumeFromFile groupTextItemsIntoLines groupLinesIntoSections
                        extractResumeFromSections world file in
  readPdf Lines Sections world fileUrl
  = (CallFetch fileUrl None
       :: calls (readDocument Lines Sections world file),
     outcome (readDocument Lines Sections world file))
  /\ parseResumeFromPdf groupTextItemsIntoLines groupLinesIntoSections
                        extractResumeFromSections world fileUrl
     = (CallFetch fileUrl None :: calls fromFile, outcome fromFile).
Proof.
  intros Hf Hb file fromFile.
  pose proof (readPdf_of_blob world fileUrl Hf Hb) as Hr. cbv zeta in Hr.
  split; [exact Hr|].
  unfold fromFile, parseResumeFromPdf, parseResumeFromFile.
  rewrite !pipeline_spec, Hr.
  destruct (readDocument Lines Sections world _) as [log [textItems|error]];
    reflexivity.
Qed.

(** X8. When the fetch of readPdf rejects, or its [response.blob()] does,
    the parsing service is never contacted: the GET of the URL is the only
    call of readPdf and of parseResumeFromPdf. *)
Theorem readPdf_failure_makes_no_second_request
        (world : World) (fileUrl : JsString) (error : Thrown) :
  fetch_outcome world fileUrl None = Throw error
  \/ (exists response,
         fetch_outcome world fileUrl None = Ok response
         /\ blob response = Throw error) ->
  let delivered :=
    match error with
    | ErrorObject _ message =>
        ErrorObject (lit "Error")
                    (lit "Failed to read PDF from URL: " ++ message)
    | NonError v => NonError v
    end in
  readPdf Lines Sections world fileUrl
  = ([CallFetch fileUrl None], Throw delivered)
  /\ parseResumeFromPdf groupTextItemsIntoLines groupLinesIntoSections
                        extractResumeFromSections world fileUrl
     = ([CallFetch fileUrl None], Throw delivered).
Proof.
  intros H delivered.
  assert (Hr : readPdf Lines Sections world fileUrl
               = ([CallFetch fileUrl None], Throw delivered)).
  { destruct H as [Hf|(response & Hf & Hb)].
    - now rewrite (readPdf_fetch_failure Lines Sections world fileUrl Hf).
    - now rewrite (readPdf_blob_failure world fileUrl Hf Hb). }
  split; [exact Hr|].
  unfold parseResumeFromPdf. rewrite pipeline_spec, Hr. reflexivity.
Qed.

(** X9. No retries: parseResumeFromFile makes at most one request and
    parseResumeFromPdf at most two, and these are exactly the requests of
    their readers. *)
Theorem requests_are_bounded
        (world : World) (file : File) (fileUrl : JsString) :
  let fromFile :=
    parseResumeFromFile groupTextItemsIntoLines groupLinesIntoSections
                        extractResumeFromSections world file in
  let fromPdf :=
    parseResumeFromPdf groupTextItemsIntoLines groupLinesIntoSections
                       extractResumeFromSections world fileUrl in
  fetch_calls (calls fromFile)
  = calls (readDocument Lines Sections world file)
  /\ (List.length (fetch_calls (calls fromFile)) <= 1)%nat
  /\ fetch_calls (calls fromPdf)
     = calls (readPdf Lines Sections world fileUrl)
  /\ (List.length (fetch_calls (calls fromPdf)) <= 2)%nat.
Proof.
  intros fromFile fromPdf.
  assert (Hf : fetch_calls (calls fromFile)
               = calls (readDocument Lines Sections world file))
    by apply pipeline_fetch_calls, readDocument_no_stage_call.
  assert (Hp : fetch_calls (calls fromPdf)
               = calls (readPdf Lines Sections world fileUrl))
    by apply pipeline_fetch_calls, readPdf_no_stage_call.
  rewrite Hf, Hp. repeat split.
  - apply readDocument_calls_bound.
  - apply readPdf_calls_bound.
Qed.

End PdfFacts.


(* ================================================================== *)
(** ** Further properties of the converter *)

Section ConverterFacts.

Local Open Scope float_scope.



Lemma column_nan (i : nat) (pts : list (list float)) (p : list float) :
  In p pts -> nth_error p i = None ->
  existsb is_nan (map ToNumber (column i pts)) = true.
Proof.
  intros Hin Hn. apply existsb_exists. exists nan. split; [|reflexivity].
  apply in_map_iff. exists None. split; [reflexivity|].
  unfold column. apply in_map_iff. exists p. auto.
Qed.

(** X12. When the callback returns for an element one of whose points has
    no y value, [height] and [y] of the text item are [NaN], whatever the
    other points are; a point with no x value does the same to [x] and
    [width]. *)
Theorem missing_coordinate_gives_NaN
        (limit : positive)
        (element : UnstructuredElement) (md : Metadata) (c : Coordinates)
        (p : list float) (textItem : TextItem) :
  UnstructuredElement.metadata element = Some md ->
  coordinates md = Some c ->
  In p (points c) ->
  toTextItem limit element = Ok textItem ->
  (nth_error p 1 = None ->
   TextItem.height textItem = nan /\ TextItem.y textItem = nan)
  /\ (nth_error p 0 = None ->
      TextItem.x textItem = nan /\ TextItem.width textItem = nan).
Proof.
  intros Hmd Hc Hin E.
  rewrite toTextItem_spec in E.
  destruct (fits limit element); [|discriminate]. injection E as <-.
  assert (Hne : points c <> []) by (destruct (points c); [easy|discriminate]).
  rewrite (@item_of_with_points element md c Hmd Hc Hne).
  unfold box_of.
  cbn [TextItem.x TextItem.y TextItem.width TextItem.height].
  split; intros Hn.
  - pose proof (column_nan 1 _ _ Hin Hn) as N.
    unfold Math_max, Math_min.
    rewrite (@ExtremaExt.max_loop_nan _ neg_infinity N).
    rewrite (@ExtremaExt.min_loop_nan _ infinity N).
    split; [reflexivity|apply ExtremaExt.sub_nan_r].
  - pose proof (column_nan 0 _ _ Hin Hn) as N.
    unfold Math_max, Math_min.
    rewrite (@ExtremaExt.max_loop_nan _ neg_infinity N).
    rewrite (@ExtremaExt.min_loop_nan _ infinity N).
    split; reflexivity.
Qed.

Lemma item_of_extent_not_negative (element : UnstructuredElement) :
  (TextItem.width (item_of element) <? 0) = false
  /\ (TextItem.height (item_of element) <? 0) = false.
Proof.
  destruct (has_points
              (coordinates match UnstructuredElement.metadata element with
                           | Some m => m
                           | None => empty_metadata
                           end)) eqn:Hp.
  - destruct (UnstructuredElement.metadata element) as [md|] eqn:Hmd;
      [|discriminate].
    destruct (coordinates md) as [c|] eqn:Hc; [|discriminate].
    assert (Hne : points c <> [])
      by (unfold has_points in Hp; destruct (points c); [discriminate|easy]).
    rewrite (@item_of_with_points element md c Hmd Hc Hne).
    unfold box_of. cbn [TextItem.width TextItem.height].
    split; apply ExtremaExt.extent_not_negative;
      unfold column; destruct (points c); [congruence|discriminate
                                          |congruence|discriminate].
  - rewrite (@item_of_without_points element).
    + split; reflexivity.
    + rewrite <- Hp. destruct (UnstructuredElement.metadata element);
        reflexivity.
Qed.

(** X13. Whatever the elements hold, no text item the converter returns
    has a negative width or height: each is [>= 0] or [NaN]. *)
Theorem extent_is_never_negative
        (limit : positive) (elements : list UnstructuredElement)
        (textItems : TextItems) :
  convertUnstructuredToTextItems limit elements = Ok textItems ->
  Forall (fun textItem =>
            (TextItem.width textItem <? 0) = false
            /\ (TextItem.height textItem <? 0) = false)
         textItems.
Proof.
  intros E. apply convert_Ok in E. destruct E as [-> _].
  unfold items_of. apply Forall_forall. intros textItem Hin.
  apply in_map_iff in Hin. destruct Hin as (element & <- & _).
  apply item_of_extent_not_negative.
Qed.

Lemma sub_diag_finite (a : float) : is_finite a = true -> a - a = 0.
Proof.
  intros F. rewrite FloatFacts.is_finite_spec in F.
  apply Prim2SF_inj. rewrite sub_spec.
  change (Prim2SF 0) with (S754_zero false).
  destruct (Prim2SF a) as [[|]|s| |s m e]; try discriminate;
    try reflexivity.
  unfold SF64sub. cbn [SFsub]. now rewrite Z.sub_diag.
Qed.

(** X14. A single point with finite coordinates gives, under every bound
    of the engine, a box of width 0 and height 0 at that point: [x] is its
    x and [y] is the page height minus its y. *)
Theorem single_point_box
        (limit : positive)
        (element : UnstructuredElement) (md : Metadata) (c : Coordinates)
        (px py : float) (more : list float) :
  UnstructuredElement.metadata element = Some md ->
  coordinates md = Some c ->
  points c = [px :: py :: more] ->
  is_finite px = true ->
  is_finite py = true ->
  toTextItem limit element
  = Ok (TextItem.mk (UnstructuredElement.text element)
                    px (or_number (layout_height c) 792 - py) 0 0
                    (lit "UnknownFont") true).
Proof.
  intros Hmd Hc Hp Fx Fy.
  assert (Hne : points c <> []) by (rewrite Hp; discriminate).
  rewrite toTextItem_spec.
  replace (fits limit element) with true.
  - f_equal. rewrite (@item_of_with_points element md c Hmd Hc Hne).
    unfold box_of. rewrite Hp. unfold column, Math_min, Math_max.
    cbn [map nth_error ToNumber].
    rewrite !(@Extrema.min_loop_start _ _ Fx),
            !(@Extrema.max_loop_start _ _ Fx).
    rewrite !(@Extrema.min_loop_start _ _ Fy),
            !(@Extrema.max_loop_start _ _ Fy).
    cbn [min_loop max_loop].
    now rewrite !sub_diag_finite by assumption.
  - symmetry. unfold fits, points_count. rewrite Hmd, Hc, Hp.
    apply N.leb_le. cbn [List.length]. lia.
Qed.

Lemma items_of_rev (elements : list UnstructuredElement) :
  items_of (rev elements) = rev (items_of elements).
Proof.
  induction elements as [|element rest IH]; [reflexivity|].
  cbn [rev]. rewrite items_of_app, IH, !items_of_cons.
  destruct (has_text element); cbn [rev]; [reflexivity|].
  apply app_nil_r.
Qed.

Lemma forallb_rev (A : Type) (p : A -> bool) (l : list A) :
  forallb p (rev l) = forallb p l.
Proof.
  induction l as [|a l IH]; [reflexivity|].
  cbn [rev forallb]. rewrite forallb_app, IH. cbn [forallb].
  rewrite andb_true_r. apply andb_comm.
Qed.

(** X15. The converter treats each element on its own, whatever its
    position and its neighbours: on a concatenation it returns the
    concatenation of what it returns on the parts and throws when it throws
    on one of them, and on a reversed list it returns the reversed list or
    throws alike. *)
Theorem convert_is_elementwise
        (limit : positive) (before after : list UnstructuredElement) :
  convertUnstructuredToTextItems limit (before ++ after)
  = Result_bind (convertUnstructuredToTextItems limit before)
      (fun itemsBefore =>
         Result_bind (convertUnstructuredToTextItems limit after)
           (fun itemsAfter => Ok (itemsBefore ++ itemsAfter)))
  /\ convertUnstructuredToTextItems limit (rev before)
     = Result_bind (convertUnstructuredToTextItems limit before)
         (fun itemsBefore => Ok (rev itemsBefore)).
Proof.
  split; [apply convert_app|].
  rewrite !convert_spec, items_of_rev.
  rewrite filter_rev, forallb_rev.
  destruct (forallb _ _); reflexivity.
Qed.

(** X19. The converter returns exactly when every element with non-blank
    text has no more points than the engine can spread, and otherwise
    throws the engine's RangeError and returns no item at all, however many
    elements could have been converted; the points of elements with blank
    text do not count. *)
Theorem convert_returns_or_throws
        (limit : positive) (elements : list UnstructuredElement) :
  ((exists textItems,
       convertUnstructuredToTextItems limit elements = Ok textItems)
   <-> Forall (fun element =>
                 is_blank (UnstructuredElement.text element) = false ->
                 (N.of_nat (points_count element) <= N.pos limit)%N)
              elements)
  /\ (convertUnstructuredToTextItems limit elements = Throw RangeError_stack
      <-> Exists (fun element =>
                    is_blank (UnstructuredElement.text element) = false
                    /\ (N.pos limit < N.of_nat (points_count element))%N)
                 elements).
Proof.
  fold (all_fit limit elements).
  rewrite all_fit_spec, convert_spec.
  assert (X : forallb (fits limit) (filter has_text elements) = false
              <-> Exists (fun element =>
                            is_blank (UnstructuredElement.text element)
                            = false
                            /\ (N.pos limit
                                < N.of_nat (points_count element))%N)
                         elements).
  { rewrite <- not_true_iff_false, forallb_forall, Exists_exists. split.
    - intros H.
      destruct (existsb (fun e => negb (fits limit e))
                        (filter has_text elements)) eqn:E.
      + apply existsb_exists in E. destruct E as (element & Hin & Hf).
        apply filter_In in Hin. destruct Hin as [Hin Ht].
        exists element. split; [exact Hin|].
        rewrite has_text_spec in Ht. apply negb_true_iff in Ht.
        split; [exact Ht|].
        apply negb_true_iff in Hf. unfold fits in Hf.
        apply N.leb_gt in Hf. exact Hf.
      + destruct H. intros element Hin.
        destruct (fits limit element) eqn:F; [reflexivity|].
        assert (existsb (fun e => negb (fits limit e))
                        (filter has_text elements) = true).
        { apply existsb_exists. exists element. now rewrite F. }
        congruence.
    - intros (element & Hin & Hb & Hl) H.
      assert (F : fits limit element = true).
      { apply H, filter_In. split; [exact Hin|].
        now rewrite has_text_spec, Hb. }
      unfold fits in F. apply N.leb_le in F. lia. }
  destruct (forallb (fits limit) (filter has_text elements)) eqn:E.
  - split.
    + split; [reflexivity|]. intros _. eexists. reflexivity.
    + split; [discriminate|]. intros H. apply X in H. discriminate H.
  - split.
    + split; [intros (textItems & H); discriminate H|discriminate].
    + split; [intros _; now apply X|reflexivity].
Qed.

End ConverterFacts.

Section BoxFacts.

Local Open Scope float_scope.

(** X11. When the callback returns for an element whose points all carry
    finite x and y values, the left edge [x] of its text item is the x of
    one of the points and is [<=] the x of every point, and [y] is the page
    height minus the y of one of the points, one that is [>=] the y of every
    point. *)
Theorem box_bounds_of_finite_points
        (limit : positive)
        (element : UnstructuredElement) (md : Metadata) (c : Coordinates)
        (textItem : TextItem) :
  UnstructuredElement.metadata element = Some md ->
  coordinates md = Some c ->
  points c <> [] ->
  forallb finite_point (points c) = true ->
  toTextItem limit element = Ok textItem ->
  exists maxY,
    In (Some (TextItem.x textItem)) (column 0 (points c))
    /\ In (Some maxY) (column 1 (points c))
    /\ TextItem.y textItem = or_number (layout_height c) 792 - maxY
    /\ Forall (fun p =>
                 (TextItem.x textItem <=? ToNumber (nth_error p 0)) = true
                 /\ (ToNumber (nth_error p 1) <=? maxY) = true)
              (points c).
Proof.
  intros Hmd Hc Hne Hf E.
  rewrite toTextItem_spec in E.
  destruct (fits limit element); [|discriminate]. injection E as <-.
  rewrite (@item_of_with_points element md c Hmd Hc Hne).
  unfold box_of. cbn [TextItem.x TextItem.y].
  destruct (@finite_point_columns _ Hf) as [F0 F1].
  assert (N0 : column 0 (points c) <> [])
    by (unfold column; destruct (points c); [congruence|discriminate]).
  assert (N1 : column 1 (points c) <> [])
    by (unfold column; destruct (points c); [congruence|discriminate]).
  destruct (@Extrema.Math_min_spec _ N0 F0) as (_ & In0 & A0).
  destruct (@Extrema.Math_max_spec _ N1 F1) as (_ & In1 & A1).
  exists (Math_max (column 1 (points c))).
  repeat split; auto.
  apply Forall_forall. intros p Hp.
  rewrite Forall_forall in A0, A1. split.
  - apply (A0 (nth_error p 0)).
    exact (in_map (fun q => nth_error q 0) _ _ Hp).
  - apply (A1 (nth_error p 1)).
    exact (in_map (fun q => nth_error q 1) _ _ Hp).
Qed.

End BoxFacts.

(* ================================================================== *)
(** ** What readDocument returns *)

Lemma items_of_nonblank (elements : list UnstructuredElement) :
  Forall (fun textItem =>
            is_blank (TextItem.text textItem) = false
            /\ TextItem.hasEOL textItem = true)
         (items_of elements).
Proof.
  unfold items_of.
  apply Forall_forall. intros textItem H.
  apply in_map_iff in H. destruct H as (element & <- & H).
  apply filter_In in H. destruct H as [_ H].
  rewrite has_text_spec in H. apply negb_true_iff in H.
  rewrite item_of_text. split; [exact H|apply item_of_flags].
Qed.

Lemma items_of_length (elements : list UnstructuredElement) :
  (List.length (items_of elements) <= List.length elements)%nat.
Proof.
  unfold items_of.
  rewrite length_map. apply filter_length_le.
Qed.

(** X16. Whenever readDocument returns, its text items are those the
    converter returned for the elements the service returned: none has
    blank text, all have the end-of-line flag set, and there are no more
    items than elements. *)
Theorem readDocument_returns_nonblank_items
        (Lines Sections : Type) (world : World) (file : File)
        (textItems : TextItems) :
  outcome (readDocument Lines Sections world file) = Ok textItems ->
  exists elements,
    outcome (parseDocumentWithUnstructured Lines Sections world file)
    = Ok elements
    /\ convertUnstructuredToTextItems (spread_limit world) elements
       = Ok textItems
    /\ Forall (fun textItem =>
                 is_blank (TextItem.text textItem) = false
                 /\ TextItem.hasEOL textItem = true)
              textItems
    /\ (List.length textItems <= List.length elements)%nat.
Proof.
  rewrite readDocument_spec. cbv zeta.
  destruct (outcome (parseDocumentWithUnstructured _ _ _ _))
    as [elements|error]; cbn [outcome snd]; [|discriminate].
  destruct (convertUnstructuredToTextItems _ elements)
    as [items|error] eqn:E; cbn [outcome snd]; [|discriminate].
  intros H. injection H as <-. exists elements.
  split; [reflexivity|]. split; [exact E|].
  apply convert_Ok in E. destruct E as [-> _].
  split; [apply items_of_nonblank|apply items_of_length].
Qed.

(* ================================================================== *)
(** ** Bodies that cannot be read *)

(** X17. When the body of the answer cannot be read, [response.json()] on
    an ok answer or [response.text()] on one that is not ok,
    parseDocumentWithUnstructured throws what the body threw, an Error
    object behind the prefix of its catch clause; for an answer that is not
    ok the status is then not reported. *)
Theorem unreadable_body_is_wrapped
        (Lines Sections : Type) (world : World) (file : File)
        (apiKey : JsString) (response : Response) (error : Thrown) :
  NEXT_PUBLIC_UNSTRUCTURED_API_KEY world = Some apiKey ->
  apiKey <> [] ->
  fetch_outcome world (apiUrl_of world) (Some (request_of apiKey file))
  = Ok response ->
  (ok response = true /\ json response = Throw error)
  \/ (ok response = false /\ text response = Throw error) ->
  outcome (parseDocumentWithUnstructured Lines Sections world file)
  = Throw match error with
          | ErrorObject _ message =>
              ErrorObject
                (lit "Error")
                (lit "Failed to parse document with Unstructured API: "
                 ++ message)
          | NonError v => NonError v
          end.
Proof.
  intros Hk Hne Hf H.
  rewrite (parseDocument_with_key Lines Sections world file Hk Hne).
  cbn [outcome snd]. rewrite Hf.
  destruct H as [[Hok Hb]|[Hok Hb]]; rewrite Hok, Hb;
    destruct error; reflexivity.
Qed.

(* ================================================================== *)
(** ** The further properties on sample inputs *)

Module SampleWorld2.

(** No key is set. *)
Definition unconfigured : World :=
  mkWorld None None (fun _ _ => Throw SampleWorld.fetch_failed) 125000.

(** The key is set and the service refuses it. *)
Definition refused : Response :=
  mkResponse false 401 (lit "Unauthorized") (Ok (lit "invalid key"))
             (Throw (ErrorObject (lit "SyntaxError")
                                 (lit "Unexpected token")))
             (Throw (ErrorObject (lit "TypeError") (lit "body used"))).

Definition refusing : World :=
  mkWorld (Some (lit "key")) (Some (lit "https://parser.example.org/v0"))
          (fun _ _ => Ok refused) 125000.

Definition pdf_blob : Blob :=
  mkBlob [37; 80; 68; 70]%N (lit "application/pdf").

Definition answer (elements : list UnstructuredElement) : Response :=
  mkResponse true 200 (lit "OK") (Ok []) (Ok elements) (Ok pdf_blob).

(** An element with a single point. *)
Definition dot : UnstructuredElement :=
  UnstructuredElement.mk
    (lit "Title") (lit "John Doe")
    (Some (mkMetadata None None
             (Some (mkCoordinates [[72; 96]]%float
                                  (lit "PixelSpace") 612 0)))).

(** The text items of [Sample.elements]. *)
Definition textItems : TextItems :=
  [TextItem.mk (lit "John Doe") 72%float 672%float 168%float 24%float
               (lit "UnknownFont") true;
   TextItem.mk (lit "john@x.com") 0%float 0%float 100%float 12%float
               (lit "UnknownFont") true].

(** An ok answer whose body is not JSON. *)
Definition garbled : Response :=
  mkResponse true 200 (lit "OK") (Ok (lit "<html>"))
             (Throw (ErrorObject (lit "SyntaxError")
                                 (lit "Unexpected token <")))
             (Ok pdf_blob).

Definition garbling : World :=
  mkWorld (Some (lit "key")) None (fun _ _ => Ok garbled) 125000.

End SampleWorld2.

Lemma key_is_set : lit "key" <> [].
Proof. discriminate. Defined.

Lemma missing_key_fails_before_any_request_witness :
  parseDocumentWithUnstructured SampleWorld.Lines SampleWorld.Sections
                                SampleWorld2.unconfigured SampleWorld.file
  = ([], Throw (ErrorObject
                  (lit "Error")
                  (lit "Unstructured API key not configured. Please set NEXT_PUBLIC_UNSTRUCTURED_API_KEY environment variable.")))
  /\ readDocument SampleWorld.Lines SampleWorld.Sections
                  SampleWorld2.unconfigured SampleWorld.file
     = ([], Throw (ErrorObject
                     (lit "Error")
                     (lit "Failed to read document: Unstructured API key not configured. Please set NEXT_PUBLIC_UNSTRUCTURED_API_KEY environment variable."))).
Proof.
  exact (@missing_key_fails_before_any_request
           SampleWorld.Lines SampleWorld.Sections
           SampleWorld2.unconfigured SampleWorld.file
           (or_introl eq_refl)).
Defined.

Lemma one_request_with_key_witness :
  calls (parseDocumentWithUnstructured
           SampleWorld.Lines SampleWorld.Sections
           SampleWorld2.refusing SampleWorld.file)
  = [CallFetch (lit "https://parser.example.org/v0")
               (Some (request_of (lit "key") SampleWorld.file))]
  /\ calls (readDocument SampleWorld.Lines SampleWorld.Sections
                         SampleWorld2.refusing SampleWorld.file)
     = [CallFetch (lit "https://parser.example.org/v0")
                  (Some (request_of (lit "key") SampleWorld.file))].
Proof.
  exact (@one_request_with_key
           SampleWorld.Lines SampleWorld.Sections
           SampleWorld2.refusing SampleWorld.file (lit "key")
           eq_refl key_is_set).
Defined.

Lemma not_ok_response_is_reported_witness :
  outcome (parseDocumentWithUnstructured
             SampleWorld.Lines SampleWorld.Sections
             SampleWorld2.refusing SampleWorld.file)
  = Throw (ErrorObject
             (lit "Error")
             (lit "Failed to parse document with Unstructured API: Unstructured API request failed: 401 Unauthorized - invalid key")).
Proof.
  exact (@not_ok_response_is_reported
           SampleWorld.Lines SampleWorld.Sections
           SampleWorld2.refusing SampleWorld.file (lit "key")
           SampleWorld2.refused (lit "invalid key")
           eq_refl key_is_set eq_refl eq_refl eq_refl).
Defined.

Lemma request_failure_is_wrapped_twice_witness :
  outcome (readDocument SampleWorld.Lines SampleWorld.Sections
                        SampleWorld.offline SampleWorld.file)
  = Throw (ErrorObject
             (lit "Error")
             (lit "Failed to read document: Failed to parse document with Unstructured API: fetch failed"))
  /\ outcome (parseResumeFromFile SampleWorld.groupTextItemsIntoLines
                                  SampleWorld.groupLinesIntoSections
                                  SampleWorld.extractResumeFromSections
                                  SampleWorld.offline SampleWorld.file)
     = Throw (ErrorObject
                (lit "Error")
                (lit "Failed to read document: Failed to parse document with Unstructured API: fetch failed")).
Proof.
  exact (@request_failure_is_wrapped_twice
           SampleWorld.Lines SampleWorld.Sections SampleWorld.Resume
           SampleWorld.groupTextItemsIntoLines
           SampleWorld.groupLinesIntoSections
           SampleWorld.extractResumeFromSections
           SampleWorld.offline SampleWorld.file (lit "key")
           SampleWorld.fetch_failed
           eq_refl key_is_set eq_refl).
Defined.

Lemma ok_response_end_to_end_witness :
  outcome (parseDocumentWithUnstructured
             SampleWorld.Lines SampleWorld.Sections
             (SampleWorld.answering Sample.elements) SampleWorld.file)
  = Ok Sample.elements
  /\ outcome (readDocument SampleWorld.Lines SampleWorld.Sections
                           (SampleWorld.answering Sample.elements)
                           SampleWorld.file)
     = Ok SampleWorld2.textItems
  /\ outcome (parseResumeFromFile SampleWorld.groupTextItemsIntoLines
                                  SampleWorld.groupLinesIntoSections
                                  SampleWorld.extractResumeFromSections
                                  (SampleWorld.answering Sample.elements)
                                  SampleWorld.file)
     = Ok 1%nat.
Proof.
  exact (@ok_response_end_to_end
           SampleWorld.Lines SampleWorld.Sections SampleWorld.Resume
           SampleWorld.groupTextItemsIntoLines
           SampleWorld.groupLinesIntoSections
           SampleWorld.extractResumeFromSections
           (SampleWorld.answering Sample.elements) SampleWorld.file
           (lit "key") (SampleWorld2.answer Sample.elements) Sample.elements
           SampleWorld2.textItems
           eq_refl key_is_set eq_refl eq_refl eq_refl eq_refl).
Defined.

Lemma oversized_points_fail_after_the_request_witness :
  readDocument SampleWorld.Lines SampleWorld.Sections
               (SampleWorld.cramped Sample.elements) SampleWorld.file
  = ([CallFetch (lit "https://api.unstructured.io/general/v0/general")
                (Some (request_of (lit "key") SampleWorld.file))],
     Throw (ErrorObject
              (lit "Error")
              (lit "Failed to read document: Maximum call stack size exceeded")))
  /\ parseResumeFromFile SampleWorld.groupTextItemsIntoLines
                         SampleWorld.groupLinesIntoSections
                         SampleWorld.extractResumeFromSections
                         (SampleWorld.cramped Sample.elements)
                         SampleWorld.file
     = ([CallFetch (lit "https://api.unstructured.io/general/v0/general")
                   (Some (request_of (lit "key") SampleWorld.file))],
        Throw (ErrorObject
                 (lit "Error")
                 (lit "Failed to read document: Maximum call stack size exceeded"))).
Proof.
  exact (@oversized_points_fail_after_the_request
           SampleWorld.Lines SampleWorld.Sections SampleWorld.Resume
           SampleWorld.groupTextItemsIntoLines
           SampleWorld.groupLinesIntoSections
           SampleWorld.extractResumeFromSections
           (SampleWorld.cramped Sample.elements) SampleWorld.file
           (lit "key") (SampleWorld2.answer Sample.elements) Sample.elements
           Sample.title
           eq_refl key_is_set eq_refl eq_refl eq_refl
           (or_introl eq_refl) eq_refl eq_refl).
Defined.

Lemma readPdf_continues_as_readDocument_witness :
  readPdf SampleWorld.Lines SampleWorld.Sections
          (SampleWorld.answering Sample.elements) SampleWorld.fileUrl
  = (CallFetch SampleWorld.fileUrl None
       :: calls (readDocument
                   SampleWorld.Lines SampleWorld.Sections
                   (SampleWorld.answering Sample.elements)
                   (mkFile [SampleWorld2.pdf_blob] (lit "resume.pdf")
                           (lit "application/pdf"))),
     Ok SampleWorld2.textItems)
  /\ parseResumeFromPdf SampleWorld.groupTextItemsIntoLines
                        SampleWorld.groupLinesIntoSections
                        SampleWorld.extractResumeFromSections
                        (SampleWorld.answering Sample.elements)
                        SampleWorld.fileUrl
     = (CallFetch SampleWorld.fileUrl None
          :: calls (parseResumeFromFile
                      SampleWorld.groupTextItemsIntoLines
                      SampleWorld.groupLinesIntoSections
                      SampleWorld.extractResumeFromSections
                      (SampleWorld.answering Sample.elements)
                      (mkFile [SampleWorld2.pdf_blob] (lit "resume.pdf")
                              (lit "application/pdf"))),
        Ok 1%nat).
Proof.
  exact (@readPdf_continues_as_readDocument
           SampleWorld.Lines SampleWorld.Sections SampleWorld.Resume
           SampleWorld.groupTextItemsIntoLines
           SampleWorld.groupLinesIntoSections
           SampleWorld.extractResumeFromSections
           (SampleWorld.answering Sample.elements) SampleWorld.fileUrl
           (SampleWorld2.answer Sample.elements) SampleWorld2.pdf_blob
           eq_refl eq_refl).
Defined.

Lemma readPdf_failure_makes_no_second_request_witness :
  readPdf SampleWorld.Lines SampleWorld.Sections
          SampleWorld2.refusing SampleWorld.fileUrl
  = ([CallFetch SampleWorld.fileUrl None],
     Throw (ErrorObject (lit "Error")
                        (lit "Failed to read PDF from URL: body used")))
  /\ parseResumeFromPdf SampleWorld.groupTextItemsIntoLines
                        SampleWorld.groupLinesIntoSections
                        SampleWorld.extractResumeFromSections
                        SampleWorld2.refusing SampleWorld.fileUrl
     = ([CallFetch SampleWorld.fileUrl None],
        Throw (ErrorObject (lit "Error")
                           (lit "Failed to read PDF from URL: body used"))).
Proof.
  exact (@readPdf_failure_makes_no_second_request
           SampleWorld.Lines SampleWorld.Sections SampleWorld.Resume
           SampleWorld.groupTextItemsIntoLines
           SampleWorld.groupLinesIntoSections
           SampleWorld.extractResumeFromSections
           SampleWorld2.refusing SampleWorld.fileUrl
           (ErrorObject (lit "TypeError") (lit "body used"))
           (or_intror
              (ex_intro _ SampleWorld2.refused (conj eq_refl eq_refl)))).
Defined.


Lemma box_bounds_of_finite_points_witness :
  exists maxY,
    In (Some 72%float) (column 0 (points Sample.title_box))
    /\ In (Some maxY) (column 1 (points Sample.title_box))
    /\ 672%float
       = (or_number (layout_height Sample.title_box) 792 - maxY)%float
    /\ Forall (fun p =>
                 (72 <=? ToNumber (nth_error p 0))%float = true
                 /\ (ToNumber (nth_error p 1) <=? maxY)%float = true)
              (points Sample.title_box).
Proof.
  exact (@box_bounds_of_finite_points
           Sample.limit Sample.title
           (mkMetadata (Some (lit "resume.pdf")) (Some 1%float)
                       (Some Sample.title_box))
           Sample.title_box
           (TextItem.mk (lit "John Doe") 72%float 672%float 168%float
                        24%float (lit "UnknownFont") true)
           eq_refl eq_refl
           (fun H => eq_ind (points Sample.title_box)
                            (fun l => match l with [] => False | _ => True end)
                            I [] H)
           eq_refl eq_refl).
Defined.

Lemma missing_coordinate_gives_NaN_witness :
  exists textItem,
    toTextItem Sample.limit Sample.ragged = Ok textItem
    /\ TextItem.height textItem = nan
    /\ TextItem.y textItem = nan.
Proof.
  exists (item_of Sample.ragged). split; [reflexivity|].
  exact (proj1 (@missing_coordinate_gives_NaN
                  Sample.limit Sample.ragged
                  (mkMetadata None None
                     (Some (mkCoordinates [[72; 96]; [240]]%float
                                          (lit "PixelSpace") 612 792)))
                  (mkCoordinates [[72; 96]; [240]]%float
                                 (lit "PixelSpace") 612 792)
                  [240%float] (item_of Sample.ragged) eq_refl eq_refl
                  (or_intror (or_introl eq_refl)) eq_refl)
               eq_refl).
Defined.

Lemma extent_is_never_negative_witness :
  Forall (fun textItem =>
            (TextItem.width textItem <? 0)%float = false
            /\ (TextItem.height textItem <? 0)%float = false)
         (items_of [Sample.ragged; Sample.overflowed; Sample.title]).
Proof.
  exact (@extent_is_never_negative
           Sample.limit [Sample.ragged; Sample.overflowed; Sample.title]
           (items_of [Sample.ragged; Sample.overflowed; Sample.title])
           eq_refl).
Defined.

Lemma single_point_box_witness :
  toTextItem 1 SampleWorld2.dot
  = Ok (TextItem.mk (lit "John Doe") 72%float 696%float 0%float 0%float
                    (lit "UnknownFont") true).
Proof.
  exact (@single_point_box
           1 SampleWorld2.dot
           (mkMetadata None None
              (Some (mkCoordinates [[72; 96]]%float
                                   (lit "PixelSpace") 612 0)))
           (mkCoordinates [[72; 96]]%float (lit "PixelSpace") 612 0)
           72%float 96%float [] eq_refl eq_refl eq_refl eq_refl eq_refl).
Defined.

Lemma readDocument_returns_nonblank_items_witness :
  exists elements,
    outcome (parseDocumentWithUnstructured
               SampleWorld.Lines SampleWorld.Sections
               (SampleWorld.answering Sample.elements) SampleWorld.file)
    = Ok elements
    /\ convertUnstructuredToTextItems Sample.limit elements
       = Ok SampleWorld2.textItems
    /\ Forall (fun textItem =>
                 is_blank (TextItem.text textItem) = false
                 /\ TextItem.hasEOL textItem = true)
              SampleWorld2.textItems
    /\ (List.length SampleWorld2.textItems <= List.length elements)%nat.
Proof.
  exact (@readDocument_returns_nonblank_items
           SampleWorld.Lines SampleWorld.Sections
           (SampleWorld.answering Sample.elements) SampleWorld.file
           SampleWorld2.textItems eq_refl).
Defined.

Lemma unreadable_body_is_wrapped_witness :
  outcome (parseDocumentWithUnstructured
             SampleWorld.Lines SampleWorld.Sections
             SampleWorld2.garbling SampleWorld.file)
  = Throw (ErrorObject
             (lit "Error")
             (lit "Failed to parse document with Unstructured API: Unexpected token <")).
Proof.
  exact (@unreadable_body_is_wrapped
           SampleWorld.Lines SampleWorld.Sections
           SampleWorld2.garbling SampleWorld.file (lit "key")
           SampleWorld2.garbled
           (ErrorObject (lit "SyntaxError") (lit "Unexpected token <"))
           eq_refl key_is_set
           eq_refl (or_introl (conj eq_refl eq_refl))).
Defined.
